(** * tk-maya: the scene-event controller and the engine job queue

    A shallow embedding of [engine.py]: the callback [on_scene_event_cb]
    that reacts to Maya's SceneOpened / SceneSaved events, the disabled
    menu, the engine hooks [init_engine], [post_app_init] and
    [destroy_engine], and the synchronous queue ([add_to_queue],
    [report_progress], [execute_queue]).

    Python code with side effects and exceptions is written in a small
    state-and-exception monad.  Calls that leave this file (the tank core
    API, Maya's own commands) are answered by an environment record. *)

From Stdlib Require Import ZArith List Ascii String Bool Lia.
From stdpp Require Import gmap strings list.

Local Open Scope Z_scope.

(** ** Exceptions *)

(** The classes the module tells apart.  [tank.TankEngineInitError] derives
    from [tank.TankError] in the tank core API; every other class that
    derives from [Exception] is [OtherException] with its printed type.
    [OutsideException] is a class that does not derive from [Exception]:
    [KeyboardInterrupt], [SystemExit] and [GeneratorExit] in Python 2.6. *)
Inductive exn_class : Type :=
| TankError
| TankEngineInitError
| OtherException (type_name : string)
| OutsideException (type_name : string).

(** What [sys.exc_info()] gives back.  [exc_value] is the message as [%s]
    prints it, a byte string; an exception whose message cannot be
    formatted that way is not covered. *)
Record exn : Type := Exn {
  exc_type : exn_class;
  exc_value : string;
  exc_traceback : list string
}.

Definition str_exn_class (c : exn_class) : string :=
  match c with
  | TankError => "<class 'tank.errors.TankError'>"
  | TankEngineInitError => "<class 'tank.platform.errors.TankEngineInitError'>"
  | OtherException n => n
  | OutsideException n => n
  end.

(** [except tank.TankError] *)
Definition is_TankError (e : exn) : bool :=
  match exc_type e with
  | TankError | TankEngineInitError => true
  | OtherException _ | OutsideException _ => false
  end.

(** [except tank.TankEngineInitError] *)
Definition is_TankEngineInitError (e : exn) : bool :=
  match exc_type e with
  | TankEngineInitError => true
  | _ => false
  end.

(** [except Exception] *)
Definition is_Exception (e : exn) : bool :=
  match exc_type e with
  | OutsideException _ => false
  | _ => true
  end.

(** The bare [except:] *)
Definition any_exception (e : exn) : bool := true.

(** ** The state-and-exception monad *)

Definition M (S A : Type) : Type := S -> S * (exn + A).

Definition ret {S A} (a : A) : M S A := fun s => (s, inr a).

Definition raise {S A} (e : exn) : M S A := fun s => (s, inl e).

Definition bind {S A B} (m : M S A) (k : A -> M S B) : M S B :=
  fun s =>
    match m s with
    | (s', inr a) => k a s'
    | (s', inl e) => (s', inl e)
    end.

Definition gets {S A} (f : S -> A) : M S A := fun s => (s, inr (f s)).

Definition modify {S} (f : S -> S) : M S unit := fun s => (f s, inr tt).

Notation "'let!' x ':=' m 'in' k" := (bind m (fun x => k))
  (at level 10, x name, m at level 100, k at level 200).
Notation "m ';;' k" := (bind m (fun _ => k))
  (at level 100, k at level 200, right associativity).

(** [try: body / except C, e: handler e / else: orelse].  The handler and
    the else branch run outside the protected region. *)
Definition try_except_else {S A B} (body : M S A) (catches : exn -> bool)
    (handler : exn -> M S B) (orelse : A -> M S B) : M S B :=
  fun s =>
    match body s with
    | (s', inr a) => orelse a s'
    | (s', inl e) => if catches e then handler e s' else (s', inl e)
    end.

(** [try: body / except C, e: handler e] *)
Definition try_except {S A} (body : M S A) (catches : exn -> bool)
    (handler : exn -> M S A) : M S A :=
  try_except_else body catches handler ret.

(** [try: body / finally: cleanup] *)
Definition try_finally {S A} (body : M S A) (cleanup : M S unit) : M S A :=
  fun s =>
    match body s with
    | (s', inr a) =>
        match cleanup s' with
        | (s'', inr _) => (s'', inr a)
        | (s'', inl e) => (s'', inl e)
        end
    | (s', inl e) =>
        match cleanup s' with
        | (s'', inr _) => (s'', inl e)
        | (s'', inl e') => (s'', inl e')
        end
    end.

(** ** Data model *)

(** A Shotgun entity link, [{"type": ..., "id": ...}]. *)
Record entity_link : Type := EntityLink {
  link_type : string;
  link_id : Z
}.

(** [tank.Context]: the engine reads [project] and [entity]; the pipeline
    step is carried along because two contexts that differ there differ. *)
Record Context : Type := Ctx {
  project : option entity_link;
  entity : option entity_link;
  step : option entity_link
}.

#[global] Instance entity_link_eq_dec : EqDecision entity_link.
Proof. solve_decision. Defined.

#[global] Instance Context_eq_dec : EqDecision Context.
Proof. solve_decision. Defined.

(** The Tank API instance returned by [tank.tank_from_path]. *)
Record Tk : Type := TankApi { project_root : string }.

(** Values found in a keyword-argument dictionary.  [BoundReportProgress] is
    the bound method [self.report_progress] of the draining engine. *)
Inductive pyvalue : Type :=
| PyNone
| PyInt (n : Z)
| PyStr (s : string)
| PyCallable (ident : string)
| BoundReportProgress.

(** A work unit, seen from the queue: called with keyword arguments, it
    reports progress some number of times through [progress_callback] and
    then returns or raises. *)
Record behaviour : Type := Behaviour {
  reports : list Z;
  raised : option exn
}.

(** Dictionaries are objects on the Python heap; [qi_args] is a reference. *)
Definition loc := nat.

(** The queue item [qi] built by [add_to_queue]. *)
Record job_item : Type := QueueItem {
  qi_name : string;
  qi_method : gmap string pyvalue -> behaviour;
  qi_args : loc
}.

(** The attributes of a [MayaEngine] instance this module reads or writes.
    An attribute that has not been assigned yet is [None]. *)
Record Engine : Type := MkEngine {
  instance_name : string;
  tank : Tk;
  context : Context;
  debug_logging : bool;
  _menu_handle : option string;
  _queue : option (list job_item);
  _current_progress : option Z;
  _maya_progress_bar : option string
}.

Inductive event_kind : Type := SceneOpened | SceneSaved.

#[global] Instance event_kind_eq_dec : EqDecision event_kind.
Proof. solve_decision. Defined.

(** A job made by [pm.scriptJob(event=[kind, cb_fn], runOnce=True)]; [cb_fn]
    is the lambda whose defaults captured [en] and [pc]. *)
Record script_job : Type := ScriptJob {
  job_event : event_kind;
  job_en : string;
  job_pc : Context
}.

(** [OpenMaya.MGlobal.displayInfo / displayWarning / displayError] *)
Inductive console_line : Type :=
| DisplayInfo (s : string)
| DisplayWarning (s : string)
| DisplayError (s : string).

(** Calls into the tank core API made by the scene callback, in the order
    they happen.  [CallStartEngine] also notes which engine, if any, was the
    current one at the moment of the call. *)
Inductive api_call : Type :=
| CallTankFromPath (path : string)
| CallContextFromPath (tk : Tk) (path : string) (hint : Context)
| CallDestroy (engine : string)
| CallStartEngine (engine_name : string) (tk : Tk) (ctx : Context)
    (live : option string).

(** Steps of Maya's main progress bar. *)
Inductive progress_op : Type :=
| BeginProgress (status : string)
| StepProgress (delta : Z)
| EndProgress.

(** ** The world outside the engine object *)

(** Answers of the collaborators that are not part of this module: the tank
    core API, Maya's [cmds.about], the standard library's [textwrap.wrap]
    and [os.path.join], and how objects print.  [pyside_present] tells
    whether the first [from PySide import QtGui] succeeds,
    [pyside_importable] what the second one raises, if anything;
    [disk_location] is the property of that name of the tank core [Engine]
    class. *)
Record Env : Type := MkEnv {
  tank_from_path : string -> exn + Tk;
  context_from_path : Tk -> string -> Context -> exn + Context;
  paths_from_entity : Tk -> string -> Z -> list string;
  start_engine_fails : string -> Tk -> Context -> option exn;
  destroy_fails : string -> option exn;
  setting_debug_logging : string -> bool;
  setting_template_project : string -> option string;
  project_path : Tk -> Context -> string -> exn + string;
  about_operatingSystem : string;
  about_version : string;
  about_batch : bool;
  pyside_present : bool;
  sys_platform : string;
  pyside_importable : option exn;
  gMainProgressBar : string;
  abspath : string -> string;
  textwrap_wrap : string -> nat -> list string;
  str_engine : string -> string;
  str_context : Context -> string;
  repr_queue_item : job_item -> string;
  disk_location : string -> string;
  os_path_join : string -> list string -> string
}.

(** Maya's session, the engine slot of [tank.platform], the heap of
    keyword-argument dictionaries, and the interpreter's [sys.path] and
    [os.environ].  [api_calls] and [invoked] are histories: nothing reads
    them, they record what was called and with what. *)
Record World : Type := MkWorld {
  ui_menus : gmap string (list string);
  scene_name : string;
  script_jobs : list script_job;
  console : list console_line;
  current_engine : option Engine;
  maya_project : option string;
  progress_bar : list progress_op;
  heap : gmap loc (gmap string pyvalue);
  api_calls : list api_call;
  invoked : list (job_item * gmap string pyvalue);
  sys_path : list string;
  os_environ : gmap string string
}.

Definition with_ui_menus (f : gmap string (list string) -> gmap string (list string))
    (w : World) : World :=
  MkWorld (f (ui_menus w)) (scene_name w) (script_jobs w) (console w)
    (current_engine w) (maya_project w) (progress_bar w) (heap w)
    (api_calls w) (invoked w) (sys_path w) (os_environ w).

Definition with_scene_name (name : string) (w : World) : World :=
  MkWorld (ui_menus w) name (script_jobs w) (console w)
    (current_engine w) (maya_project w) (progress_bar w) (heap w)
    (api_calls w) (invoked w) (sys_path w) (os_environ w).

Definition with_script_jobs (f : list script_job -> list script_job)
    (w : World) : World :=
  MkWorld (ui_menus w) (scene_name w) (f (script_jobs w)) (console w)
    (current_engine w) (maya_project w) (progress_bar w) (heap w)
    (api_calls w) (invoked w) (sys_path w) (os_environ w).

Definition with_console (f : list console_line -> list console_line)
    (w : World) : World :=
  MkWorld (ui_menus w) (scene_name w) (script_jobs w) (f (console w))
    (current_engine w) (maya_project w) (progress_bar w) (heap w)
    (api_calls w) (invoked w) (sys_path w) (os_environ w).

Definition with_current_engine (e : option Engine) (w : World) : World :=
  MkWorld (ui_menus w) (scene_name w) (script_jobs w) (console w)
    e (maya_project w) (progress_bar w) (heap w)
    (api_calls w) (invoked w) (sys_path w) (os_environ w).

Definition with_maya_project (p : option string) (w : World) : World :=
  MkWorld (ui_menus w) (scene_name w) (script_jobs w) (console w)
    (current_engine w) p (progress_bar w) (heap w)
    (api_calls w) (invoked w) (sys_path w) (os_environ w).

Definition with_progress_bar (f : list progress_op -> list progress_op)
    (w : World) : World :=
  MkWorld (ui_menus w) (scene_name w) (script_jobs w) (console w)
    (current_engine w) (maya_project w) (f (progress_bar w)) (heap w)
    (api_calls w) (invoked w) (sys_path w) (os_environ w).

Definition with_heap
    (f : gmap loc (gmap string pyvalue) -> gmap loc (gmap string pyvalue))
    (w : World) : World :=
  MkWorld (ui_menus w) (scene_name w) (script_jobs w) (console w)
    (current_engine w) (maya_project w) (progress_bar w) (f (heap w))
    (api_calls w) (invoked w) (sys_path w) (os_environ w).

Definition with_api_calls (f : list api_call -> list api_call)
    (w : World) : World :=
  MkWorld (ui_menus w) (scene_name w) (script_jobs w) (console w)
    (current_engine w) (maya_project w) (progress_bar w) (heap w)
    (f (api_calls w)) (invoked w) (sys_path w) (os_environ w).

Definition with_invoked
    (f : list (job_item * gmap string pyvalue) -> list (job_item * gmap string pyvalue))
    (w : World) : World :=
  MkWorld (ui_menus w) (scene_name w) (script_jobs w) (console w)
    (current_engine w) (maya_project w) (progress_bar w) (heap w)
    (api_calls w) (f (invoked w)) (sys_path w) (os_environ w).

Definition with_sys_path (f : list string -> list string) (w : World) : World :=
  MkWorld (ui_menus w) (scene_name w) (script_jobs w) (console w)
    (current_engine w) (maya_project w) (progress_bar w) (heap w)
    (api_calls w) (invoked w) (f (sys_path w)) (os_environ w).

Definition with_os_environ (f : gmap string string -> gmap string string)
    (w : World) : World :=
  MkWorld (ui_menus w) (scene_name w) (script_jobs w) (console w)
    (current_engine w) (maya_project w) (progress_bar w) (heap w)
    (api_calls w) (invoked w) (sys_path w) (f (os_environ w)).

(** Attribute assignment on the engine object. *)
Definition set_menu_handle (h : option string) (self : Engine) : Engine :=
  MkEngine (instance_name self) (tank self) (context self) (debug_logging self)
    h (_queue self) (_current_progress self) (_maya_progress_bar self).

Definition set_queue (q : list job_item) (self : Engine) : Engine :=
  MkEngine (instance_name self) (tank self) (context self) (debug_logging self)
    (_menu_handle self) (Some q) (_current_progress self) (_maya_progress_bar self).

Definition set_current_progress (p : Z) (self : Engine) : Engine :=
  MkEngine (instance_name self) (tank self) (context self) (debug_logging self)
    (_menu_handle self) (_queue self) (Some p) (_maya_progress_bar self).

Definition set_maya_progress_bar (b : string) (self : Engine) : Engine :=
  MkEngine (instance_name self) (tank self) (context self) (debug_logging self)
    (_menu_handle self) (_queue self) (_current_progress self) (Some b).

(** Exceptions raised by Python or by Maya itself. *)
Definition AttributeError (attr : string) : exn :=
  Exn (OtherException "<type 'exceptions.AttributeError'>")
      ("'MayaEngine' object has no attribute '" +:+ attr +:+ "'") [].

Definition RuntimeError (msg : string) : exn :=
  Exn (OtherException "<type 'exceptions.RuntimeError'>") msg [].

Definition TypeError (msg : string) : exn :=
  Exn (OtherException "<type 'exceptions.TypeError'>") msg [].

Definition CONSOLE_OUTPUT_WIDTH : nat := 200.

(** ** Maya commands *)

Definition displayInfo (s : string) : M World unit :=
  modify (with_console (fun c => c ++ [DisplayInfo s])).

Definition displayWarning (s : string) : M World unit :=
  modify (with_console (fun c => c ++ [DisplayWarning s])).

Definition displayError (s : string) : M World unit :=
  modify (with_console (fun c => c ++ [DisplayError s])).

(** [pm.menu(name, exists=True)] *)
Definition menu_exists (name : string) : M World bool :=
  gets (fun w => bool_decide (is_Some (ui_menus w !! name))).

(** [pm.menu(name, label="Tank", parent=...)]; Maya refuses a name that is
    taken. *)
Definition menu (name : string) : M World string :=
  fun w =>
    match ui_menus w !! name with
    | Some _ => (w, inl (RuntimeError ("Object's name '" +:+ name +:+ "' is not unique.")))
    | None => (with_ui_menus (fun m => <[name := []]> m) w, inr name)
    end.

(** [pm.menuItem(label=..., parent=menu, command=...)] *)
Definition menuItem (label parent : string) : M World unit :=
  modify (with_ui_menus (fun m =>
    match m !! parent with
    | Some items => <[parent := items ++ [label]]> m
    | None => m
    end)).

(** [pm.deleteUI(name)]; Maya refuses to delete what is not there. *)
Definition deleteUI (name : string) : M World unit :=
  fun w =>
    match ui_menus w !! name with
    | Some _ => (with_ui_menus (fun m => delete name m) w, inr tt)
    | None => (w, inl (RuntimeError ("Object '" +:+ name +:+ "' not found.")))
    end.

(** [pm.sceneName()] *)
Definition sceneName : M World string := gets scene_name.

(** [pm.scriptJob(event=[kind, cb_fn], runOnce=True)] with
    [cb_fn = lambda en=..., pc=...: on_scene_event_cb(en, pc)] *)
Definition scriptJob (kind : event_kind) (en : string) (pc : Context) : M World unit :=
  modify (with_script_jobs (fun js => js ++ [ScriptJob kind en pc])).

(** [pm.progressBar(bar, edit=True, ...)] *)
Definition progressBar (op : progress_op) : M World unit :=
  modify (with_progress_bar (fun ops => ops ++ [op])).

(** ** The interpreter *)

(** [sys.path.append(p)] *)
Definition sys_path_append (p : string) : M World unit :=
  modify (with_sys_path (fun ps => ps ++ [p])).

(** [os.environ.get(key, fallback)] *)
Definition environ_get (key fallback : string) : M World string :=
  gets (fun w => default fallback (os_environ w !! key)).

(** [os.environ[key] = value] *)
Definition environ_set (key value : string) : M World unit :=
  modify (with_os_environ (fun m => <[key := value]> m)).

(** Run an action for each element, in order ([for l in ...:]). *)
Fixpoint for_each {S A} (xs : list A) (f : A -> M S unit) : M S unit :=
  match xs with
  | [] => ret tt
  | x :: rest => f x ;; for_each rest f
  end.

Definition nl : string := String "010"%char EmptyString.

Section Controller.

Variable env : Env.

(** ** Logging *)

Definition log_debug (self : Engine) (msg : string) : M World unit :=
  if debug_logging self then
    let msg := str_engine env (instance_name self) +:+ " DEBUG: " +:+ msg in
    for_each (textwrap_wrap env msg CONSOLE_OUTPUT_WIDTH) displayInfo
  else ret tt.

Definition log_info (self : Engine) (msg : string) : M World unit :=
  let msg := "Tank: " +:+ msg in
  for_each (textwrap_wrap env msg CONSOLE_OUTPUT_WIDTH) displayInfo.

Definition log_warning (self : Engine) (msg : string) : M World unit :=
  let msg := "Tank: " +:+ msg in
  for_each (textwrap_wrap env msg CONSOLE_OUTPUT_WIDTH) displayWarning.

Definition log_error (self : Engine) (msg : string) : M World unit :=
  let msg := "Tank: " +:+ msg in
  displayError msg.

(** Modelled from the spec: [log_exception] is inherited from the tank core
    [Engine] class, which is not in this module; the error is logged with
    full detail on the error channel. *)
Definition log_exception (self : Engine) (msg : string) (e : exn) : M World unit :=
  log_error self (msg +:+ nl +:+ str_exn_class (exc_type e) +:+ ": " +:+ exc_value e
                  +:+ nl +:+ String.concat nl (exc_traceback e)).

(** ** Disabled menu *)

(** The command of the menu item opens the dialog of [tank_disabled_message],
    which changes nothing in [World]. *)
Definition create_tank_disabled_menu : M World unit :=
  let! present := menu_exists "TankMenu" in
  (if present then deleteUI "TankMenu" else ret tt) ;;
  let! sg_menu := menu "TankMenuDisabled" in
  menuItem "Tank is disabled." sg_menu.

(** ** Engine hooks *)

Definition has_ui : bool :=
  if about_batch env then false else true.

Definition _set_project (self : Engine) : M World unit :=
  match setting_template_project env (instance_name self) with
  | None => ret tt
  | Some setting =>
      match project_path env (tank self) (context self) setting with
      | inl e => raise e
      | inr proj_path =>
          log_info self ("Setting Maya project to '" +:+ proj_path +:+ "'") ;;
          modify (with_maya_project (Some proj_path))
      end
  end.

(** [from PySide import QtGui], the second time *)
Definition import_PySide : M World unit :=
  match pyside_importable env with
  | Some e => raise e
  | None => ret tt
  end.

(** The first import stands under a bare [except:], the second one under
    [except Exception, e]. *)
Definition _init_pyside (self : Engine) : M World unit :=
  if pyside_present env then
    log_debug self "PySide detected - Tank will use the existing version."
  else
    log_debug self "PySide not detected - Tank will add it to the setup now..." ;;
    (if String.eqb (sys_platform env) "darwin" then
       let pyside_path :=
         os_path_join env (disk_location env (instance_name self))
           ["resources"; "pyside112_py26_qt471_mac"; "python"] in
       sys_path_append pyside_path
     else if String.eqb (sys_platform env) "win32" then
       let pyside_path :=
         os_path_join env (disk_location env (instance_name self))
           ["resources"; "pyside111_py26_qt471_win64"; "python"] in
       sys_path_append pyside_path ;;
       let dll_path :=
         os_path_join env (disk_location env (instance_name self))
           ["resources"; "pyside111_py26_qt471_win64"; "lib"] in
       let! path := environ_get "PATH" "" in
       let path := path +:+ ";" +:+ dll_path in
       environ_set "PATH" path
     else if String.eqb (sys_platform env) "linux2" then
       let pyside_path :=
         os_path_join env (disk_location env (instance_name self))
           ["resources"; "pyside112_py26_qt471_linux"; "python"] in
       sys_path_append pyside_path
     else log_error self "Unknown platform - cannot initialize PySide!") ;;
    try_except import_PySide is_Exception
      (fun e =>
         log_error self ("PySide could not be imported! Tank Apps using pyside will not "
                         +:+ "operate correctly! Error reported: " +:+ exc_value e)).

Definition tank_error (msg : string) : exn := Exn TankError msg [].

Definition init_engine (self : Engine) : M World Engine :=
  log_debug self (str_engine env (instance_name self) +:+ ": Initializing...") ;;
  let current_os := about_operatingSystem env in
  if negb (bool_decide (current_os ∈ ["mac"; "win64"; "linux64"])) then
    raise (tank_error ("The current platform is not supported! Supported platforms "
                       +:+ "are Mac, Linux 64 and Windows 64."))
  else
  let current_maya_version := about_version env in
  (if String.prefix "2012" current_maya_version
      || String.prefix "2013" current_maya_version then
     log_debug self ("Running Maya version " +:+ current_maya_version)
   else
     raise (tank_error ("Your version of Maya is not supported. Currently, Tank only "
                        +:+ "supports 2012 and 2013."))) ;;
  let! locations :=
    match entity (context self) with
    | Some ent => ret (paths_from_entity env (tank self) (link_type ent) (link_id ent))
    | None =>
        match project (context self) with
        | Some prj => ret (paths_from_entity env (tank self) (link_type prj) (link_id prj))
        | None =>
            raise (tank_error ("The Tank engine needs at least a project in the context "
                               +:+ "in order to start! Your context: "
                               +:+ str_context env (context self)))
        end
    end in
  if (length locations =? 0)%nat then
    raise (tank_error ("No folders on disk are associated with the current context. The "
                       +:+ "engine requires a context which exists on disk in order to run "
                       +:+ "correctly."))
  else
  let self := set_queue [] self in
  _set_project self ;;
  _init_pyside self ;;
  scriptJob SceneOpened (instance_name self) (context self) ;;
  scriptJob SceneSaved (instance_name self) (context self) ;;
  log_debug self "Registered open and save callbacks." ;;
  ret self.

(** The menu generator of the [tk_maya] package fills the menu when it is
    clicked; only the menu itself is created here. *)
Definition post_app_init (self : Engine) : M World Engine :=
  if has_ui then
    let! handle := menu "TankMenu" in
    ret (set_menu_handle (Some handle) self)
  else ret self.

Definition destroy_engine (self : Engine) : M World unit :=
  log_debug self (str_engine env (instance_name self) +:+ ": Destroying...") ;;
  match _menu_handle self with
  | Some handle => deleteUI handle
  | None => raise (AttributeError "_menu_handle")
  end.

(** ** The tank platform around the hooks *)

Definition record_call (c : api_call) : M World unit :=
  modify (with_api_calls (fun cs => cs ++ [c])).

(** [tank.platform.current_engine()] *)
Definition get_current_engine : M World (option Engine) := gets current_engine.

(** Modelled from the spec: [tank.platform.start_engine] is not in this
    module.  The Session factory [start(engine_identifier, pipeline_handle,
    context) -> Session] either fails, or creates the Session, which then is
    the live one; creating it runs this module's [init_engine] and
    [post_app_init], whose errors leave [start_engine] as they are. *)
Definition start_engine (engine_name : string) (tk : Tk) (ctx : Context) : M World Engine :=
  let! live := get_current_engine in
  record_call (CallStartEngine engine_name tk ctx (instance_name <$> live)) ;;
  match start_engine_fails env engine_name tk ctx with
  | Some e => raise e
  | None =>
      let self := MkEngine engine_name tk ctx (setting_debug_logging env engine_name)
                    None None None None in
      let! self := init_engine self in
      let! self := post_app_init self in
      modify (with_current_engine (Some self)) ;;
      ret self
  end.

(** Modelled from the spec: [Engine.destroy] is inherited from the tank core
    and not in this module.  [destroy()] releases the UI affordance through
    this module's [destroy_engine]; after it returns the Session is no
    longer the live one. *)
Definition destroy (self : Engine) : M World unit :=
  record_call (CallDestroy (instance_name self)) ;;
  match destroy_fails env (instance_name self) with
  | Some e => raise e
  | None =>
      destroy_engine self ;;
      modify (with_current_engine None)
  end.

Definition call_tank_from_path (path : string) : M World Tk :=
  record_call (CallTankFromPath path) ;;
  match tank_from_path env path with
  | inl e => raise e
  | inr tk => ret tk
  end.

Definition call_context_from_path (tk : Tk) (path : string) (hint : Context)
    : M World Context :=
  record_call (CallContextFromPath tk path hint) ;;
  match context_from_path env tk path hint with
  | inl e => raise e
  | inr ctx => ret ctx
  end.

(** ** The scene callback *)

(** The text shown by the outermost [except Exception, e]. *)
Definition problem_message (e : exn) : string :=
  "" +:+ "Message: There was a problem starting the Tank Engine." +:+ nl
     +:+ "Please contact tanksupport@shotgunsoftware.com" +:+ nl +:+ nl
     +:+ "Exception: " +:+ str_exn_class (exc_type e) +:+ " - " +:+ exc_value e +:+ nl
     +:+ "Traceback (most recent call last):" +:+ nl
     +:+ String.concat nl (exc_traceback e).

(** Lines 40-42: remove the disabled menu if it is there. *)
Definition reset_disabled_menu : M World unit :=
  let! disabled := menu_exists "TankMenuDisabled" in
  if disabled then deleteUI "TankMenuDisabled" else ret tt.

(** Lines 68-73, [if current_engine: ...]: tear down the engine found at
    entry; [current_engine] is the value read at the top of the callback. *)
Definition teardown (current_engine : option Engine) (prev_context ctx : Context)
    : M World unit :=
  match current_engine with
  | Some current_engine =>
      log_debug current_engine "Ready to switch to context because of scene event !" ;;
      log_debug current_engine ("Prev context: " +:+ str_context env prev_context) ;;
      log_debug current_engine ("New context: " +:+ str_context env ctx) ;;
      destroy current_engine
  | None => ret tt
  end.

(** Lines 68-87: the teardown, then the start of an engine for [ctx]. *)
Definition switch_engine (current_engine : option Engine) (engine_name : string)
    (prev_context : Context) (tk : Tk) (ctx : Context) : M World unit :=
  teardown current_engine prev_context ctx ;;
  try_except_else (start_engine engine_name tk ctx) is_TankEngineInitError
    (fun e =>
       displayInfo ("Tank Engine cannot be started: " +:+ exc_value e) ;;
       create_tank_disabled_menu ;;
       scriptJob SceneOpened engine_name prev_context ;;
       scriptJob SceneSaved engine_name prev_context)
    (fun new_engine =>
       log_debug new_engine "Launched new engine for context!").

(** The statements inside the outermost [try:].  A Python [return] ends
    the branch it stands in. *)
Definition on_scene_event_try (engine_name : string) (prev_context : Context)
    : M World unit :=
  let! current_engine := get_current_engine in
  reset_disabled_menu ;;
  let! name := sceneName in
  if String.eqb name "" then
    ret tt
  else
    let new_path := abspath env name in
    try_except_else (call_tank_from_path new_path) is_TankError
      (fun e =>
         displayInfo ("Tank Engine cannot be started: " +:+ exc_value e) ;;
         create_tank_disabled_menu)
      (fun tk =>
         let! ctx := call_context_from_path tk new_path prev_context in
         if bool_decide (is_Some current_engine) && bool_decide (ctx = prev_context) then
           ret tt
         else
           switch_engine current_engine engine_name prev_context tk ctx).

Definition on_scene_event_cb (engine_name : string) (prev_context : Context)
    : M World unit :=
  try_except (on_scene_event_try engine_name prev_context) is_Exception
    (fun e => displayError (problem_message e)).

(** Modelled from the spec: Maya's event dispatch is not in this module.
    A listener is one-shot: when an event of its kind happens, each job
    registered for that kind is removed and then run once, oldest first.
    An exception that leaves a job stops the dispatch. *)
Definition fire_event (kind : event_kind) : M World unit :=
  let! jobs := gets script_jobs in
  let fired := filter (fun j => job_event j = kind) jobs in
  modify (with_script_jobs (fun _ => filter (fun j => job_event j ≠ kind) jobs)) ;;
  for_each fired (fun j => on_scene_event_cb (job_en j) (job_pc j)).

End Controller.

(** ** The engine queue *)

(** The queue methods mutate [self] while work units run, so here the engine
    object is part of the state. *)
Definition in_world {A} (m : M World A) : M (Engine * World) A :=
  fun s =>
    match m (snd s) with
    | (w', r) => ((fst s, w'), r)
    end.

Definition get_self : M (Engine * World) Engine := gets fst.

Definition set_self (f : Engine -> Engine) : M (Engine * World) unit :=
  modify (fun s => (f (fst s), snd s)).

Section JobQueue.

Variable env : Env.

Definition deprecation_notice : string :=
  "The Engine Queue is now deprecated! Please contact support@shotgunsoftware.com".

Definition add_to_queue (name : string) (method : gmap string pyvalue -> behaviour)
    (args : loc) : M (Engine * World) unit :=
  let! self := get_self in
  in_world (log_warning env self deprecation_notice) ;;
  let qi := QueueItem name method args in
  match _queue self with
  | Some q => set_self (set_queue (q ++ [qi]))
  | None => raise (AttributeError "_queue")
  end.

Definition report_progress (percent : Z) : M (Engine * World) unit :=
  let! self := get_self in
  match _current_progress self with
  | None => raise (AttributeError "_current_progress")
  | Some current =>
      let delta := percent - current in
      match _maya_progress_bar self with
      | None => raise (AttributeError "_maya_progress_bar")
      | Some _ =>
          in_world (progressBar (StepProgress delta)) ;;
          set_self (set_current_progress percent)
      end
  end.

(** [kwargs] is bound to the item's [args] and then the key
    [progress_callback] is set to [self.report_progress]: the dictionary the
    caller handed to [add_to_queue] is the one written to.  Yields the
    contents that the call then receives as keyword arguments. *)
Definition force_progress_callback (current_queue_item : job_item)
    : M (Engine * World) (gmap string pyvalue) :=
  let! h := gets (fun s => heap (snd s)) in
  match h !! qi_args current_queue_item with
  | None => raise (TypeError "object does not support item assignment")
  | Some kwargs =>
      let kwargs := <["progress_callback" := BoundReportProgress]> kwargs in
      in_world (modify (with_heap (fun h => <[qi_args current_queue_item := kwargs]> h))) ;;
      ret kwargs
  end.

(** The call of the item's method with [kwargs] unpacked as keyword
    arguments. *)
Definition call_method (current_queue_item : job_item) (kwargs : gmap string pyvalue)
    : M (Engine * World) unit :=
  in_world (modify (with_invoked (fun l => l ++ [(current_queue_item, kwargs)]))) ;;
  let b := qi_method current_queue_item kwargs in
  for_each (reports b) report_progress ;;
  match raised b with
  | Some e => raise e
  | None => ret tt
  end.

(** One turn of the [while] loop, after the head was taken off. *)
Definition process_item (current_queue_item : job_item) : M (Engine * World) unit :=
  in_world (progressBar (BeginProgress (qi_name current_queue_item))) ;;
  set_self (set_current_progress 0) ;;
  try_finally
    (try_except
       (let! kwargs := force_progress_callback current_queue_item in
        call_method current_queue_item kwargs)
       any_exception
       (fun e =>
          let! self := get_self in
          in_world (log_exception self
                      ("Error while processing callback "
                       +:+ repr_queue_item env current_queue_item) e)))
    (in_world (progressBar EndProgress)).

(** [while len(self._queue) > 0: ...]; [None] when the turns allowed by
    [fuel] are used up before the queue is empty. *)
Fixpoint while_queue (fuel : nat) : M (Engine * World) (option unit) :=
  let! self := get_self in
  match _queue self with
  | None => raise (AttributeError "_queue")
  | Some [] => ret (Some tt)
  | Some (current_queue_item :: rest) =>
      match fuel with
      | O => ret None
      | S fuel' =>
          set_self (set_queue rest) ;;
          process_item current_queue_item ;;
          while_queue fuel'
      end
  end.

Definition execute_queue (fuel : nat) : M (Engine * World) (option unit) :=
  let! self := get_self in
  in_world (log_warning env self deprecation_notice) ;;
  set_self (set_maya_progress_bar (gMainProgressBar env)) ;;
  while_queue fuel.

End JobQueue.

(** * What the proofs talk about *)

(** ** A drained item *)

(** The dictionary a method is called with. *)
Definition item_kwargs (d : gmap string pyvalue) : gmap string pyvalue :=
  <["progress_callback" := BoundReportProgress]> d.

(** The dictionary found at [qi_args] with the callback forced in. *)
Definition kwargs_in (h : gmap loc (gmap string pyvalue)) (qi : job_item)
    : gmap string pyvalue :=
  item_kwargs (default ∅ (h !! qi_args qi)).

(** Successive differences of the reported percentages, from [current]. *)
Fixpoint deltas (current : Z) (ps : list Z) : list Z :=
  match ps with
  | [] => []
  | p :: rest => (p - current) :: deltas p rest
  end.

Definition item_progress (qi : job_item) (kwargs : gmap string pyvalue)
    : list progress_op :=
  BeginProgress (qi_name qi)
    :: map StepProgress (deltas 0 (reports (qi_method qi kwargs))) ++ [EndProgress].

Definition item_errors (env : Env) (qi : job_item) (kwargs : gmap string pyvalue)
    : list console_line :=
  match raised (qi_method qi kwargs) with
  | Some e =>
      [DisplayError ("Tank: " +:+ ("Error while processing callback "
                                   +:+ repr_queue_item env qi) +:+ nl
                     +:+ str_exn_class (exc_type e) +:+ ": " +:+ exc_value e
                     +:+ nl +:+ String.concat nl (exc_traceback e))]
  | None => []
  end.

(** The world after one turn of the loop for [qi]. *)
Definition after_item (env : Env) (qi : job_item) (w : World) : World :=
  let kwargs := kwargs_in (heap w) qi in
  MkWorld (ui_menus w) (scene_name w) (script_jobs w)
    (console w ++ item_errors env qi kwargs)
    (current_engine w) (maya_project w)
    (progress_bar w ++ item_progress qi kwargs)
    (<[qi_args qi := kwargs]> (heap w))
    (api_calls w)
    (invoked w ++ [(qi, kwargs)])
    (sys_path w) (os_environ w).

Definition after_queue (env : Env) (q : list job_item) (w : World) : World :=
  fold_left (fun w qi => after_item env qi w) q w.

(** A caller that hands several jobs to the queue, one [add_to_queue] for
    each, in the order of the list. *)
Definition enqueue_all (env : Env) (items : list job_item) : M (Engine * World) unit :=
  for_each items
    (fun qi => add_to_queue env (qi_name qi) (qi_method qi) (qi_args qi)).

(** ** Lines on the console *)

Definition warning_lines (env : Env) (msg : string) : list console_line :=
  map DisplayWarning (textwrap_wrap env ("Tank: " +:+ msg) CONSOLE_OUTPUT_WIDTH).

Definition debug_lines (env : Env) (self : Engine) (msg : string) : list console_line :=
  if debug_logging self then
    map DisplayInfo
      (textwrap_wrap env (str_engine env (instance_name self) +:+ " DEBUG: " +:+ msg)
         CONSOLE_OUTPUT_WIDTH)
  else [].

Definition info_lines (env : Env) (msg : string) : list console_line :=
  map DisplayInfo (textwrap_wrap env ("Tank: " +:+ msg) CONSOLE_OUTPUT_WIDTH).

(** The deprecation notices of [enqueue_all]: one per item. *)
Definition enqueue_notices (env : Env) (items : list job_item) : list console_line :=
  flat_map (fun _ => warning_lines env deprecation_notice) items.

Definition cannot_start (e : exn) : console_line :=
  DisplayInfo ("Tank Engine cannot be started: " +:+ exc_value e).


(** ** The session and its menus *)

Definition disabled_menu_items : list string := ["Tank is disabled."].

(** What [destroy] does to the world when nothing goes wrong. *)
Definition destroyed (env : Env) (self : Engine) (handle : string) (w : World) : World :=
  with_current_engine None
    (with_ui_menus (delete handle)
       (with_console
          (fun c => c ++ debug_lines env self
                            (str_engine env (instance_name self) +:+ ": Destroying..."))
          (with_api_calls (fun cs => cs ++ [CallDestroy (instance_name self)]) w))).

(** The menus, the engine slot and the list of API calls are as before;
    the console, the script jobs and the Maya project may have changed. *)
Definition same_session (w w' : World) : Prop :=
  ui_menus w' = ui_menus w
  /\ current_engine w' = current_engine w
  /\ api_calls w' = api_calls w.

Definition keeps_session {A} (m : M World A) : Prop :=
  forall w, same_session w (fst (m w)).

Definition live_sessions (w : World) : nat :=
  match current_engine w with
  | Some _ => 1
  | None => 0
  end.

Definition disabled_markers (w : World) : nat :=
  match ui_menus w !! "TankMenuDisabled" with
  | Some _ => 1
  | None => 0
  end.

(** The menu of a session and the disabled menu are not both there. *)
Definition one_affordance (w : World) : Prop :=
  ~ (is_Some (ui_menus w !! "TankMenu") /\ is_Some (ui_menus w !! "TankMenuDisabled")).

(** The calls [switch_engine] starts with. *)
Definition teardown_calls (current_engine : option Engine) : list api_call :=
  match current_engine with
  | Some self => [CallDestroy (instance_name self)]
  | None => []
  end.

(** ** Worlds along the scene callback *)

Definition scene_path (env : Env) (w : World) : string :=
  abspath env (scene_name w).

(** The world once the disabled menu was reset. *)
Definition reset_world (w : World) : World :=
  with_ui_menus (delete "TankMenuDisabled") w.

(** The world once [tank_from_path] raised [e]. *)
Definition unresolved_world (env : Env) (w : World) : World :=
  with_api_calls (fun cs => cs ++ [CallTankFromPath (scene_path env w)]) (reset_world w).

(** The world once path and context were resolved. *)
Definition resolved_world (env : Env) (pc : Context) (tk : Tk) (w : World) : World :=
  with_api_calls
    (fun cs => cs ++ [CallTankFromPath (scene_path env w);
                      CallContextFromPath tk (scene_path env w) pc])
    (reset_world w).

(** ** A small studio, for concrete runs *)

Definition ctx_shot10 : Context :=
  Ctx (Some (EntityLink "Project" 1)) (Some (EntityLink "Shot" 10)) None.

Definition ctx_shot20 : Context :=
  Ctx (Some (EntityLink "Project" 1)) (Some (EntityLink "Shot" 20)) None.

Definition ctx_shot30 : Context :=
  Ctx (Some (EntityLink "Project" 1)) (Some (EntityLink "Shot" 30)) None.

Definition ctx_shot40 : Context :=
  Ctx (Some (EntityLink "Project" 1)) (Some (EntityLink "Shot" 40)) None.

Definition tk_demo : Tk := TankApi "/projects/demo".

Definition io_error : exn :=
  Exn (OtherException "<type 'exceptions.IOError'>") "disk unreadable"
      ["  File tank/api.py, line 40, in tank_from_path"].

Definition unknown_path_error (p : string) : exn :=
  Exn TankError ("Path '" +:+ p +:+ "' does not belong to a Tank project!") [].

Definition no_context_error : exn :=
  Exn TankError "Cannot resolve a context for this path." [].

Definition init_error : exn :=
  Exn TankEngineInitError "No environment is configured for this context." [].

Definition key_error : exn :=
  Exn (OtherException "<type 'exceptions.KeyError'>") "'apps'"
      ["  File tank/platform/engine.py, line 210, in start_engine"].


(** Paths below [/projects/demo/] belong to the project; the folders of
    shots 10 to 40 resolve to their contexts, other folders do not resolve.
    No engine can be started for shot 30 (an engine-initialization error)
    nor for shot 40 (a [KeyError] inside the platform). *)
Definition demo_env : Env :=
  MkEnv
    (fun p =>
       if String.prefix "/projects/demo/" p then inr tk_demo
       else if String.eqb p "/tmp/crash.ma" then inl io_error
       else inl (unknown_path_error p))
    (fun tk p hint =>
       if String.eqb p "/projects/demo/shot10/scene.ma" then inr ctx_shot10
       else if String.eqb p "/projects/demo/shot20/scene.ma" then inr ctx_shot20
       else if String.eqb p "/projects/demo/shot30/scene.ma" then inr ctx_shot30
       else if String.eqb p "/projects/demo/shot40/scene.ma" then inr ctx_shot40
       else inl no_context_error)
    (fun tk ty id => ["/projects/demo"])
    (fun en tk ctx =>
       if bool_decide (ctx = ctx_shot30) then Some init_error
       else if bool_decide (ctx = ctx_shot40) then Some key_error
       else None)
    (fun en => None)
    (fun en => false)
    (fun en => None)
    (fun tk ctx s => inr "/projects/demo")
    "linux64" "2013 x64" false true "linux2" None "mainProgressBar"
    (fun p => p) (fun s _ => [s])
    (fun en => "<Tank Engine " +:+ en +:+ ">") (fun c => "<Tank Context>")
    (fun qi => qi_name qi)
    (fun en => "/tank/install/engines/" +:+ en)
    (fun a parts => String.concat "/" (a :: parts)).

Definition engine_shot10 : Engine :=
  MkEngine "tk-maya" tk_demo ctx_shot10 false (Some "TankMenu") (Some []) None None.

Definition jobs_shot10 : list script_job :=
  [ScriptJob SceneOpened "tk-maya" ctx_shot10; ScriptJob SceneSaved "tk-maya" ctx_shot10].

(** An engine for shot 10 is running. *)
Definition world_active (scene : string) : World :=
  MkWorld {["TankMenu" := []]} scene jobs_shot10 [] (Some engine_shot10)
    None [] ∅ [] [] ["/usr/lib/python2.6"] ∅.

(** No engine is running and the disabled menu is shown. *)
Definition world_disabled (scene : string) : World :=
  MkWorld {["TankMenuDisabled" := ["Tank is disabled."]]} scene jobs_shot10 []
    None None [] ∅ [] [] ["/usr/lib/python2.6"] ∅.

(** Three queued jobs.  [export] reports 0, 40 and 100; [publish] reports 50
    and raises; [notify] reports nothing and was given the same dictionary
    as [export]. *)
Definition value_error : exn :=
  Exn (OtherException "<type 'exceptions.ValueError'>") "bad frame range"
      ["  File publish.py, line 12, in run"].

Definition job_export : job_item :=
  QueueItem "export" (fun _ => Behaviour [0; 40; 100] None) 1%nat.

Definition job_publish : job_item :=
  QueueItem "publish" (fun _ => Behaviour [50] (Some value_error)) 2%nat.

Definition job_notify : job_item :=
  QueueItem "notify" (fun _ => Behaviour [] None) 1%nat.

Definition demo_queue : list job_item := [job_export; job_publish; job_notify].

Definition export_kwargs : gmap string pyvalue := {["frames" := PyInt 10]}.

Definition publish_kwargs : gmap string pyvalue :=
  {["progress_callback" := PyCallable "caller_progress"]}.

(** The engine right after [init_engine]: the queue is empty. *)
Definition engine_queued : Engine :=
  MkEngine "tk-maya" tk_demo ctx_shot10 false (Some "TankMenu") (Some [])
    None None.

Definition world_queued : World :=
  MkWorld {["TankMenu" := []]} "/projects/demo/shot10/scene.ma" jobs_shot10 []
    (Some engine_queued) None []
    (<[1%nat := export_kwargs]> (<[2%nat := publish_kwargs]> ∅)) [] []
    ["/usr/lib/python2.6"] ∅.

(** The engine in the middle of a job, 40 percent reported so far. *)
Definition engine_reporting : Engine :=
  MkEngine "tk-maya" tk_demo ctx_shot10 false (Some "TankMenu") (Some [])
    (Some 40) (Some "mainProgressBar").

(** ** What [init_engine] checks *)

(** [cmds.about(operatingSystem=True)] is one of the supported systems. *)
Definition platform_supported (env : Env) : bool :=
  bool_decide (about_operatingSystem env ∈ ["mac"; "win64"; "linux64"]).

(** [cmds.about(version=True)] starts with 2012 or 2013. *)
Definition maya_supported (env : Env) : bool :=
  String.prefix "2012" (about_version env) || String.prefix "2013" (about_version env).

(** The folders [init_engine] asks for: those of the entity when the context
    has one, else those of the project, else none are asked for. *)
Definition engine_locations (env : Env) (self : Engine) : option (list string) :=
  match entity (context self) with
  | Some ent => Some (paths_from_entity env (tank self) (link_type ent) (link_id ent))
  | None =>
      match project (context self) with
      | Some prj => Some (paths_from_entity env (tank self) (link_type prj) (link_id prj))
      | None => None
      end
  end.

(** What [_set_project] comes to: an exception of the template code, no
    project to set, or the project path that is set. *)
Definition project_setup (env : Env) (self : Engine) : exn + option string :=
  match setting_template_project env (instance_name self) with
  | None => inr None
  | Some setting =>
      match project_path env (tank self) (context self) setting with
      | inl e => inl e
      | inr proj_path => inr (Some proj_path)
      end
  end.

(** All four checks of [init_engine] pass and [_set_project] goes through. *)
Definition init_engine_ok (env : Env) (self : Engine) : bool :=
  platform_supported env
  && maya_supported env
  && match engine_locations env self with
     | Some (_ :: _) => true
     | _ => false
     end
  && match project_setup env self with
     | inl _ => false
     | inr _ => true
     end.

(** The folder of the PySide build the engine ships for [sys.platform]. *)
Definition pyside_folder (env : Env) : option string :=
  if String.eqb (sys_platform env) "darwin" then Some "pyside112_py26_qt471_mac"
  else if String.eqb (sys_platform env) "win32" then Some "pyside111_py26_qt471_win64"
  else if String.eqb (sys_platform env) "linux2" then Some "pyside112_py26_qt471_linux"
  else None.

(** What [_init_pyside] appends to [sys.path]. *)
Definition pyside_paths (env : Env) (self : Engine) : list string :=
  if pyside_present env then []
  else
    match pyside_folder env with
    | Some folder =>
        [os_path_join env (disk_location env (instance_name self))
           ["resources"; folder; "python"]]
    | None => []
    end.

(** The folder of the DLLs that goes behind [PATH] on win32. *)
Definition pyside_dll_path (env : Env) (self : Engine) : string :=
  os_path_join env (disk_location env (instance_name self))
    ["resources"; "pyside111_py26_qt471_win64"; "lib"].

(** [os.environ] after [_init_pyside]. *)
Definition pyside_environ (env : Env) (self : Engine) (m : gmap string string)
    : gmap string string :=
  if negb (pyside_present env) && String.eqb (sys_platform env) "win32" then
    <["PATH" := default "" (m !! "PATH") +:+ ";" +:+ pyside_dll_path env self]> m
  else m.

(** The exception that leaves [_init_pyside], if any: what the second
    import raised, when [except Exception] does not catch it. *)
Definition pyside_escape (env : Env) : option exn :=
  if pyside_present env then None
  else
    match pyside_importable env with
    | Some e => if is_Exception e then None else Some e
    | None => None
    end.

(** The console lines of [_init_pyside]. *)
Definition pyside_lines (env : Env) (self : Engine) : list console_line :=
  if pyside_present env then
    debug_lines env self "PySide detected - Tank will use the existing version."
  else
    debug_lines env self "PySide not detected - Tank will add it to the setup now..."
    ++ (if bool_decide (sys_platform env ∈ ["darwin"; "win32"; "linux2"]) then []
        else [DisplayError ("Tank: " +:+ "Unknown platform - cannot initialize PySide!")])
    ++ match pyside_importable env with
       | None => []
       | Some e =>
           if is_Exception e then
             [DisplayError
                ("Tank: " +:+ ("PySide could not be imported! Tank Apps using pyside will not "
                               +:+ "operate correctly! Error reported: " +:+ exc_value e))]
           else []
       end.

(** The world after [_init_pyside]. *)
Definition pyside_world (env : Env) (self : Engine) (w : World) : World :=
  MkWorld (ui_menus w) (scene_name w) (script_jobs w)
    (console w ++ pyside_lines env self) (current_engine w) (maya_project w)
    (progress_bar w) (heap w) (api_calls w) (invoked w)
    (sys_path w ++ pyside_paths env self) (pyside_environ env self (os_environ w)).

(** The console lines of [_set_project]. *)
Definition project_lines (env : Env) (self : Engine) : list console_line :=
  match project_setup env self with
  | inr (Some proj_path) =>
      info_lines env ("Setting Maya project to '" +:+ proj_path +:+ "'")
  | _ => []
  end.

(** The two jobs registered by [init_engine]. *)
Definition engine_jobs (self : Engine) : list script_job :=
  [ScriptJob SceneOpened (instance_name self) (context self);
   ScriptJob SceneSaved (instance_name self) (context self)].

(** The Maya project after [_set_project]. *)
Definition project_after (env : Env) (self : Engine) (w : World) : option string :=
  match project_setup env self with
  | inr (Some proj_path) => Some proj_path
  | _ => maya_project w
  end.

(** The exception [init_engine] raises, if any: the first check that fails,
    in the order of the source, or what the template code raised. *)
Definition init_engine_error (env : Env) (self : Engine) : option exn :=
  if negb (platform_supported env) then
    Some (tank_error ("The current platform is not supported! Supported platforms "
                      +:+ "are Mac, Linux 64 and Windows 64."))
  else if negb (maya_supported env) then
    Some (tank_error ("Your version of Maya is not supported. Currently, Tank only "
                      +:+ "supports 2012 and 2013."))
  else
    match engine_locations env self with
    | None =>
        Some (tank_error ("The Tank engine needs at least a project in the context "
                          +:+ "in order to start! Your context: "
                          +:+ str_context env (context self)))
    | Some [] =>
        Some (tank_error ("No folders on disk are associated with the current context. The "
                          +:+ "engine requires a context which exists on disk in order to run "
                          +:+ "correctly."))
    | Some (_ :: _) =>
        match project_setup env self with
        | inl e => Some e
        | inr _ => None
        end
    end.

(** The console lines of an [init_engine] that goes through. *)
Definition init_lines (env : Env) (self : Engine) : list console_line :=
  debug_lines env self (str_engine env (instance_name self) +:+ ": Initializing...")
  ++ debug_lines env self ("Running Maya version " +:+ about_version env)
  ++ project_lines env self
  ++ pyside_lines env self
  ++ debug_lines env self "Registered open and save callbacks.".

(** The world after an [init_engine] that goes through. *)
Definition initialised (env : Env) (self : Engine) (w : World) : World :=
  MkWorld (ui_menus w) (scene_name w) (script_jobs w ++ engine_jobs self)
    (console w ++ init_lines env self) (current_engine w)
    (project_after env self w) (progress_bar w) (heap w) (api_calls w) (invoked w)
    (sys_path w ++ pyside_paths env self) (pyside_environ env self (os_environ w)).

(** The console lines of an [init_engine] that the import of PySide ends. *)
Definition init_interrupted_lines (env : Env) (self : Engine) : list console_line :=
  debug_lines env self (str_engine env (instance_name self) +:+ ": Initializing...")
  ++ debug_lines env self ("Running Maya version " +:+ about_version env)
  ++ project_lines env self
  ++ pyside_lines env self.

(** The world when the import of PySide ended [init_engine]: the project is
    set and the paths are added, no script job is registered. *)
Definition init_interrupted (env : Env) (self : Engine) (w : World) : World :=
  MkWorld (ui_menus w) (scene_name w) (script_jobs w)
    (console w ++ init_interrupted_lines env self) (current_engine w)
    (project_after env self w) (progress_bar w) (heap w) (api_calls w) (invoked w)
    (sys_path w ++ pyside_paths env self) (pyside_environ env self (os_environ w)).

(** The exception that leaves [init_engine], if any: that of its checks and
    of the template code, else that of the import of PySide. *)
Definition init_engine_raises (env : Env) (self : Engine) : option exn :=
  match init_engine_error env self with
  | Some e => Some e
  | None => pyside_escape env
  end.

(** The console lines of an [init_engine] that raises: the version is only
    logged once platform and version were accepted. *)
Definition init_failure_lines (env : Env) (self : Engine) : list console_line :=
  debug_lines env self (str_engine env (instance_name self) +:+ ": Initializing...")
  ++ (if platform_supported env && maya_supported env
      then debug_lines env self ("Running Maya version " +:+ about_version env)
      else []).

(** ** What [start_engine] and [destroy] come to *)

(** The engine object [start_engine] builds before the hooks run. *)
Definition fresh_engine (env : Env) (engine_name : string) (tk : Tk) (ctx : Context)
    : Engine :=
  MkEngine engine_name tk ctx (setting_debug_logging env engine_name)
    None None None None.

(** The engine object [start_engine] returns. *)
Definition started_engine (env : Env) (engine_name : string) (tk : Tk) (ctx : Context)
    : Engine :=
  let self := set_queue [] (fresh_engine env engine_name tk ctx) in
  if has_ui env then set_menu_handle (Some "TankMenu") self else self.

(** The exception [start_engine] raises, if any, before the menu is made:
    the platform's own, else that of [init_engine]. *)
Definition start_error (env : Env) (engine_name : string) (tk : Tk) (ctx : Context)
    : option exn :=
  match start_engine_fails env engine_name tk ctx with
  | Some e => Some e
  | None => init_engine_raises env (fresh_engine env engine_name tk ctx)
  end.

(** [start_engine] got as far as [_init_pyside]. *)
Definition import_reached (env : Env) (engine_name : string) (tk : Tk) (ctx : Context)
    : bool :=
  match start_engine_fails env engine_name tk ctx with
  | Some _ => false
  | None =>
      match init_engine_error env (fresh_engine env engine_name tk ctx) with
      | Some _ => false
      | None => true
      end
  end.

(** No engine is running, Maya has a UI, and a menu named [TankMenu] is
    there all the same. *)
Definition stale_tank_menu (env : Env) (w : World) : bool :=
  has_ui env
  && negb (bool_decide (is_Some (current_engine w)))
  && bool_decide (is_Some (ui_menus w !! "TankMenu")).

(** The engine found at entry, if any, can be torn down: the platform does
    not object and the menu the engine holds is there. *)
Definition teardown_clean (env : Env) (w : World) : Prop :=
  match current_engine w with
  | Some ce =>
      destroy_fails env (instance_name ce) = None
      /\ _menu_handle ce = Some "TankMenu"
      /\ is_Some (ui_menus w !! "TankMenu")
  | None => True
  end.

(** [env] with other answers for [paths_from_entity]. *)
Definition with_paths_from_entity (f : Tk -> string -> Z -> list string) (env : Env)
    : Env :=
  MkEnv (tank_from_path env) (context_from_path env) f (start_engine_fails env)
    (destroy_fails env) (setting_debug_logging env) (setting_template_project env)
    (project_path env) (about_operatingSystem env) (about_version env)
    (about_batch env) (pyside_present env) (sys_platform env) (pyside_importable env)
    (gMainProgressBar env) (abspath env) (textwrap_wrap env) (str_engine env)
    (str_context env) (repr_queue_item env) (disk_location env) (os_path_join env).

(** [env] for a Maya that runs in batch mode. *)
Definition in_batch_mode (env : Env) : Env :=
  MkEnv (tank_from_path env) (context_from_path env) (paths_from_entity env)
    (start_engine_fails env) (destroy_fails env) (setting_debug_logging env)
    (setting_template_project env) (project_path env) (about_operatingSystem env)
    (about_version env) true (pyside_present env) (sys_platform env)
    (pyside_importable env) (gMainProgressBar env) (abspath env) (textwrap_wrap env)
    (str_engine env) (str_context env) (repr_queue_item env) (disk_location env)
    (os_path_join env).

(** The shot has no folder on disk, the project has. *)
Definition env_no_shot_folder : Env :=
  with_paths_from_entity
    (fun tk ty id => if String.eqb ty "Shot" then [] else ["/projects/demo"])
    demo_env.

(** The console lines of a [start_engine] that raises. *)
Definition start_failure_lines (env : Env) (engine_name : string) (tk : Tk)
    (ctx : Context) : list console_line :=
  match start_engine_fails env engine_name tk ctx with
  | Some _ => []
  | None =>
      if import_reached env engine_name tk ctx
      then init_interrupted_lines env (fresh_engine env engine_name tk ctx)
      else init_failure_lines env (fresh_engine env engine_name tk ctx)
  end.

(** The world after [start_engine] raised before the menu was made. *)
Definition start_failed (env : Env) (engine_name : string) (tk : Tk) (ctx : Context)
    (w : World) : World :=
  let self := fresh_engine env engine_name tk ctx in
  let reached := import_reached env engine_name tk ctx in
  MkWorld (ui_menus w) (scene_name w) (script_jobs w)
    (console w ++ start_failure_lines env engine_name tk ctx)
    (current_engine w)
    (if reached then project_after env self w else maya_project w)
    (progress_bar w) (heap w)
    (api_calls w ++ [CallStartEngine engine_name tk ctx
                       (instance_name <$> current_engine w)])
    (invoked w)
    (if reached then sys_path w ++ pyside_paths env self else sys_path w)
    (if reached then pyside_environ env self (os_environ w) else os_environ w).

(** What [pm.menu] raises when the name [TankMenu] is taken. *)
Definition menu_taken : exn := RuntimeError "Object's name 'TankMenu' is not unique.".

(** The world after [post_app_init] raised [menu_taken]: [init_engine] went
    through, the engine is not the current one. *)
Definition menu_refused (env : Env) (engine_name : string) (tk : Tk) (ctx : Context)
    (w : World) : World :=
  let self := fresh_engine env engine_name tk ctx in
  MkWorld (ui_menus w) (scene_name w)
    (script_jobs w ++ engine_jobs self)
    (console w ++ init_lines env self)
    (current_engine w)
    (project_after env self w) (progress_bar w) (heap w)
    (api_calls w ++ [CallStartEngine engine_name tk ctx
                       (instance_name <$> current_engine w)])
    (invoked w)
    (sys_path w ++ pyside_paths env self) (pyside_environ env self (os_environ w)).

(** The world after [start_engine] returned. *)
Definition started (env : Env) (engine_name : string) (tk : Tk) (ctx : Context)
    (w : World) : World :=
  let self := fresh_engine env engine_name tk ctx in
  MkWorld
    (if has_ui env then <["TankMenu" := []]> (ui_menus w) else ui_menus w)
    (scene_name w)
    (script_jobs w ++ engine_jobs self)
    (console w ++ init_lines env self)
    (Some (started_engine env engine_name tk ctx))
    (project_after env self w) (progress_bar w) (heap w)
    (api_calls w ++ [CallStartEngine engine_name tk ctx
                       (instance_name <$> current_engine w)])
    (invoked w)
    (sys_path w ++ pyside_paths env self) (pyside_environ env self (os_environ w)).

(** The console lines of the teardown of [self]. *)
Definition teardown_lines (env : Env) (self : Engine) (prev_context ctx : Context)
    : list console_line :=
  debug_lines env self "Ready to switch to context because of scene event !"
  ++ debug_lines env self ("Prev context: " +:+ str_context env prev_context)
  ++ debug_lines env self ("New context: " +:+ str_context env ctx)
  ++ debug_lines env self (str_engine env (instance_name self) +:+ ": Destroying...").

(** The world after a teardown that went through. *)
Definition torn_down (env : Env) (prev_context ctx : Context) (w : World) : World :=
  match current_engine w with
  | Some self =>
      MkWorld (delete "TankMenu" (ui_menus w)) (scene_name w) (script_jobs w)
        (console w ++ teardown_lines env self prev_context ctx)
        None (maya_project w) (progress_bar w) (heap w)
        (api_calls w ++ [CallDestroy (instance_name self)]) (invoked w)
        (sys_path w) (os_environ w)
  | None => w
  end.

(** A computation that leaves the observation [f] of the world as it is. *)
Definition preserves {X A} (f : World -> X) (m : M World A) : Prop :=
  forall w, f (fst (m w)) = f w.

(** What the queue works on, and the scene name. *)
Definition queue_side (w : World) : gmap loc (gmap string pyvalue) * list progress_op
                                   * list (job_item * gmap string pyvalue) * string :=
  (heap w, progress_bar w, invoked w, scene_name w).

(** [env] with other answers of the platform's [destroy]. *)
Definition with_destroy_fails (f : string -> option exn) (env : Env) : Env :=
  MkEnv (tank_from_path env) (context_from_path env) (paths_from_entity env)
    (start_engine_fails env) f (setting_debug_logging env)
    (setting_template_project env) (project_path env) (about_operatingSystem env)
    (about_version env) (about_batch env) (pyside_present env) (sys_platform env)
    (pyside_importable env) (gMainProgressBar env) (abspath env) (textwrap_wrap env)
    (str_engine env) (str_context env) (repr_queue_item env) (disk_location env)
    (os_path_join env).

(** An app of the running engine refuses to shut down. *)
Definition env_destroy_refused : Env :=
  with_destroy_fails (fun _ => Some key_error) demo_env.


(** The separator of paths on Windows. *)
Definition backslash : string := String (ascii_of_nat 92) EmptyString.

(** The studio on Windows, with a Maya that has no PySide of its own; the
    build the engine ships can be imported. *)
Definition env_win32 : Env :=
  MkEnv (tank_from_path demo_env) (context_from_path demo_env)
    (paths_from_entity demo_env) (start_engine_fails demo_env)
    (destroy_fails demo_env) (setting_debug_logging demo_env)
    (setting_template_project demo_env) (project_path demo_env)
    "win64" "2013 x64" false false "win32" None
    (gMainProgressBar demo_env) (abspath demo_env) (textwrap_wrap demo_env)
    (str_engine demo_env) (str_context demo_env) (repr_queue_item demo_env)
    (fun en => "C:\tank\engines" +:+ backslash +:+ en)
    (fun a parts => String.concat backslash (a :: parts)).

(** ** Draining any queue *)

(** The item's [args] is a dictionary on the heap. *)
Definition has_dictionary (h : gmap loc (gmap string pyvalue)) (qi : job_item) : bool :=
  bool_decide (is_Some (h !! qi_args qi)).

(** The world after one turn of the loop for [qi], whether or not its
    [args] is a dictionary: if it is not, the assignment of the callback
    raises, which is logged, and the method is not called. *)
Definition drained_item (env : Env) (qi : job_item) (w : World) : World :=
  match heap w !! qi_args qi with
  | Some _ => after_item env qi w
  | None =>
      MkWorld (ui_menus w) (scene_name w) (script_jobs w)
        (console w
         ++ [DisplayError
               ("Tank: " +:+ ("Error while processing callback "
                              +:+ repr_queue_item env qi) +:+ nl
                +:+ str_exn_class (exc_type (TypeError "object does not support item assignment"))
                +:+ ": " +:+ "object does not support item assignment"
                +:+ nl +:+ String.concat nl [])])
        (current_engine w) (maya_project w)
        (progress_bar w ++ [BeginProgress (qi_name qi); EndProgress])
        (heap w) (api_calls w) (invoked w) (sys_path w) (os_environ w)
  end.

Definition drained (env : Env) (q : list job_item) (w : World) : World :=
  fold_left (fun w qi => drained_item env qi w) q w.

(** The statuses of the progress bars begun in [ops], in order. *)
Definition begun (ops : list progress_op) : list string :=
  flat_map (fun op => match op with BeginProgress s => [s] | _ => [] end) ops.

(** How many progress bars were ended in [ops]. *)
Definition ended (ops : list progress_op) : nat :=
  length (flat_map (fun op => match op with EndProgress => [tt] | _ => [] end) ops).

(** Each report is at least the one before, starting from [current]. *)
Fixpoint nondecreasing (current : Z) (ps : list Z) : Prop :=
  match ps with
  | [] => True
  | p :: rest => current <= p /\ nondecreasing p rest
  end.

Definition total (steps : list Z) : Z := fold_right Z.add 0 steps.

(** A queued job whose [args] is no dictionary: nothing lives at location 7. *)
Definition job_broken : job_item :=
  QueueItem "broken" (fun _ => Behaviour [10] None) 7%nat.

Definition engine_with_broken_job : Engine :=
  MkEngine "tk-maya" tk_demo ctx_shot10 false (Some "TankMenu")
    (Some [job_broken; job_export]) None None.

(** * Proofs *)

(** ** Worlds *)

(** Two worlds with the same fields are the same world. *)
Lemma World_ext (w1 w2 : World) :
  ui_menus w1 = ui_menus w2 ->
  scene_name w1 = scene_name w2 ->
  script_jobs w1 = script_jobs w2 ->
  console w1 = console w2 ->
  current_engine w1 = current_engine w2 ->
  maya_project w1 = maya_project w2 ->
  progress_bar w1 = progress_bar w2 ->
  heap w1 = heap w2 ->
  api_calls w1 = api_calls w2 ->
  invoked w1 = invoked w2 ->
  sys_path w1 = sys_path w2 ->
  os_environ w1 = os_environ w2 ->
  w1 = w2.
Proof. destruct w1, w2; simpl; intros; by subst. Qed.

(** Setters and projections of [World] are unfolded innermost first, so that
    a tower of updates is flattened in one pass. *)
Ltac world_simpl :=
  cbv beta iota delta
    [with_ui_menus with_scene_name with_script_jobs with_console with_current_engine
     with_maya_project with_progress_bar with_heap with_api_calls with_invoked
     with_sys_path with_os_environ
     ui_menus scene_name script_jobs console current_engine maya_project
     progress_bar heap api_calls invoked sys_path os_environ fst snd].

Ltac world_simpl_all :=
  cbv beta iota delta
    [with_ui_menus with_scene_name with_script_jobs with_console with_current_engine
     with_maya_project with_progress_bar with_heap with_api_calls with_invoked
     with_sys_path with_os_environ
     ui_menus scene_name script_jobs console current_engine maya_project
     progress_bar heap api_calls invoked sys_path os_environ fst snd] in *.

Ltac world_eq :=
  apply World_ext; world_simpl; rewrite <- ?app_assoc, ?app_nil_r; try reflexivity.

(** ** Running the logging functions *)

Lemma with_console_nil w : with_console (fun c => c ++ []) w = w.
Proof. destruct w; unfold with_console; simpl. by rewrite app_nil_r. Qed.

Lemma with_console_app l1 l2 w :
  with_console (fun c => c ++ l2) (with_console (fun c => c ++ l1) w)
  = with_console (fun c => c ++ l1 ++ l2) w.
Proof. destruct w; unfold with_console; simpl. by rewrite app_assoc. Qed.

Lemma for_each_display (mk : string -> console_line)
    (show : string -> M World unit) (ls : list string) :
  (forall s w, show s w = (with_console (fun c => c ++ [mk s]) w, inr tt)) ->
  forall w, for_each ls show w = (with_console (fun c => c ++ map mk ls) w, inr tt).
Proof.
  intros Hshow. induction ls as [|l ls IH]; intros w; simpl.
  - unfold ret. by rewrite with_console_nil.
  - unfold bind. rewrite Hshow, IH, with_console_app. reflexivity.
Qed.

Lemma log_debug_run env self msg w :
  log_debug env self msg w
  = (with_console (fun c => c ++ debug_lines env self msg) w, inr tt).
Proof.
  unfold log_debug, debug_lines. destruct (debug_logging self).
  - by apply for_each_display.
  - unfold ret. by rewrite with_console_nil.
Qed.

Lemma log_info_run env self msg w :
  log_info env self msg w
  = (with_console (fun c => c ++ info_lines env msg) w, inr tt).
Proof. unfold log_info, info_lines. by apply for_each_display. Qed.

Lemma log_warning_run env self msg w :
  log_warning env self msg w
  = (with_console (fun c => c ++ warning_lines env msg) w, inr tt).
Proof. unfold log_warning, warning_lines. by apply for_each_display. Qed.

(** ** The queue *)

Lemma set_current_progress_same self p :
  _current_progress self = Some p -> set_current_progress p self = self.
Proof. destruct self; simpl; intros ->; reflexivity. Qed.

Lemma with_progress_bar_nil w : with_progress_bar (fun ops => ops ++ []) w = w.
Proof. destruct w; unfold with_progress_bar; simpl. by rewrite app_nil_r. Qed.

Lemma last_step (ps : list Z) : forall p current,
  List.last (p :: ps) current = List.last ps p.
Proof.
  induction ps as [|q ps IH]; intros p current; [reflexivity|].
  change (List.last (p :: q :: ps) current) with (List.last (q :: ps) current).
  by rewrite !IH.
Qed.

Lemma run_reports (ps : list Z) : forall self w current bar,
  _current_progress self = Some current ->
  _maya_progress_bar self = Some bar ->
  for_each ps report_progress (self, w)
  = ((set_current_progress (List.last ps current) self,
      with_progress_bar (fun ops => ops ++ map StepProgress (deltas current ps)) w),
     inr tt).
Proof.
  induction ps as [|p ps IH]; intros self w current bar Hcur Hbar.
  - simpl. unfold ret. by rewrite set_current_progress_same, with_progress_bar_nil.
  - change (for_each (p :: ps) report_progress)
      with (report_progress p ;; for_each ps report_progress).
    unfold bind at 1. unfold report_progress at 1.
    unfold bind, get_self, gets, set_self, modify, in_world, progressBar; simpl.
    rewrite Hcur, Hbar; simpl.
    rewrite (IH _ _ p bar); [|by destruct self..].
    f_equal. f_equal.
    + assert (Hlast : match ps with [] => p | _ :: _ => List.last ps current end
                      = List.last ps p)
        by (destruct ps; [done | by rewrite !last_step]).
      rewrite Hlast. by destruct self.
    + destruct w; unfold with_progress_bar; simpl. by rewrite <- app_assoc.
Qed.

Lemma process_item_run env qi self w d bar :
  heap w !! qi_args qi = Some d ->
  _maya_progress_bar self = Some bar ->
  process_item env qi (self, w)
  = ((set_current_progress
        (List.last (reports (qi_method qi (kwargs_in (heap w) qi))) 0) self,
      after_item env qi w),
     inr tt).
Proof.
  intros Hd Hbar.
  unfold process_item, try_finally, try_except, try_except_else,
    force_progress_callback, call_method.
  unfold bind, get_self, gets, set_self, modify, in_world, progressBar, ret; simpl.
  rewrite Hd; simpl.
  unfold after_item, kwargs_in, item_errors; rewrite Hd; simpl.
  change (<["progress_callback" := BoundReportProgress]> d) with (item_kwargs d).
  set (kwargs := item_kwargs d).
  set (b := qi_method qi kwargs).
  erewrite (run_reports (reports b) _ _ 0 bar); [|by destruct self..].
  destruct (raised b) as [e|] eqn:Hraised; simpl.
  - unfold log_exception, log_error, displayError, modify; simpl.
    f_equal. f_equal.
    unfold item_progress. world_eq.
  - f_equal. f_equal.
    unfold item_progress. world_eq.
Qed.

Lemma kwargs_in_insert h qi qi' :
  kwargs_in (<[qi_args qi := kwargs_in h qi]> h) qi' = kwargs_in h qi'.
Proof.
  unfold kwargs_in. destruct (decide (qi_args qi = qi_args qi')) as [Heq|Hne].
  - rewrite <- Heq, lookup_insert_eq. simpl.
    unfold item_kwargs. by rewrite insert_insert_eq.
  - by rewrite lookup_insert_ne.
Qed.

Lemma after_item_heap_dom env qi w l :
  is_Some (heap w !! l) -> is_Some (heap (after_item env qi w) !! l).
Proof.
  intros Hl. unfold after_item; simpl.
  destruct (decide (qi_args qi = l)) as [->|Hne].
  - rewrite lookup_insert_eq. eauto.
  - by rewrite lookup_insert_ne.
Qed.

Lemma while_queue_run env bar (q : list job_item) : forall fuel self w,
  _queue self = Some q ->
  _maya_progress_bar self = Some bar ->
  (forall qi, qi ∈ q -> is_Some (heap w !! qi_args qi)) ->
  (length q <= fuel)%nat ->
  exists self',
    while_queue env fuel (self, w) = ((self', after_queue env q w), inr (Some tt))
    /\ _queue self' = Some []
    /\ _maya_progress_bar self' = Some bar.
Proof.
  induction q as [|qi q IH]; intros fuel self w Hq Hbar Hheap Hfuel.
  - exists self. destruct fuel; simpl;
      unfold bind, get_self, gets, ret; simpl; rewrite Hq; auto.
  - destruct fuel as [|fuel]; [simpl in Hfuel; lia|].
    destruct (Hheap qi) as [d Hd]; [left|].
    simpl. unfold bind at 1. unfold get_self, gets; simpl. rewrite Hq.
    unfold bind at 1. unfold set_self at 1, modify; simpl.
    unfold bind at 1.
    erewrite (process_item_run env qi _ w d bar); [|done|by destruct self].
    edestruct (IH fuel) as (self' & Hrun & Hq' & Hbar'); last first.
    + exists self'. rewrite Hrun. auto.
    + simpl in Hfuel; lia.
    + intros qi' Hin. apply after_item_heap_dom, Hheap. by right.
    + by destruct self.
    + by destruct self.
Qed.

#[local] Arguments item_progress : simpl never.
#[local] Arguments item_errors : simpl never.
#[local] Arguments kwargs_in : simpl never.

Lemma kwargs_in_after_item env qi w qi' :
  kwargs_in (heap (after_item env qi w)) qi' = kwargs_in (heap w) qi'.
Proof. unfold after_item; simpl. apply kwargs_in_insert. Qed.

Lemma flat_map_after_item {A} env qi w (F : job_item -> gmap string pyvalue -> list A)
    (q : list job_item) :
  flat_map (fun qi' => F qi' (kwargs_in (heap (after_item env qi w)) qi')) q
  = flat_map (fun qi' => F qi' (kwargs_in (heap w) qi')) q.
Proof. apply flat_map_ext. intros qi'. by rewrite kwargs_in_after_item. Qed.

Lemma after_queue_invoked env (q : list job_item) : forall w,
  invoked (after_queue env q w)
  = invoked w ++ map (fun qi => (qi, kwargs_in (heap w) qi)) q.
Proof.
  induction q as [|qi q IH]; intros w; simpl.
  - by rewrite app_nil_r.
  - rewrite IH. simpl. rewrite <- app_assoc. simpl. do 2 f_equal.
    apply map_ext. intros qi'. by rewrite (kwargs_in_insert (heap w) qi qi').
Qed.

Lemma after_queue_progress_bar env (q : list job_item) : forall w,
  progress_bar (after_queue env q w)
  = progress_bar w ++ flat_map (fun qi => item_progress qi (kwargs_in (heap w) qi)) q.
Proof.
  induction q as [|qi q IH]; intros w; simpl.
  - by rewrite app_nil_r.
  - rewrite IH, flat_map_after_item. simpl. by rewrite <- app_assoc.
Qed.

Lemma after_queue_console env (q : list job_item) : forall w,
  console (after_queue env q w)
  = console w ++ flat_map (fun qi => item_errors env qi (kwargs_in (heap w) qi)) q.
Proof.
  induction q as [|qi q IH]; intros w; simpl.
  - by rewrite app_nil_r.
  - rewrite IH, flat_map_after_item. simpl. by rewrite <- app_assoc.
Qed.

Lemma item_kwargs_idemp d : item_kwargs (item_kwargs d) = item_kwargs d.
Proof. unfold item_kwargs. by rewrite insert_insert_eq. Qed.

Lemma after_queue_heap env (q : list job_item) : forall w l,
  heap (after_queue env q w) !! l
  = if decide (l ∈ map qi_args q)
    then Some (item_kwargs (default ∅ (heap w !! l)))
    else heap w !! l.
Proof.
  induction q as [|qi q IH]; intros w l.
  - simpl. destruct (decide (l ∈ [])) as [Hin|]; [by apply elem_of_nil in Hin|done].
  - change (after_queue env (qi :: q) w) with (after_queue env q (after_item env qi w)).
    rewrite IH. unfold after_item at 1 2; simpl. unfold kwargs_in.
    destruct (decide (l = qi_args qi)) as [->|Hne].
    + rewrite lookup_insert_eq; simpl. rewrite item_kwargs_idemp.
      rewrite (decide_True (P := qi_args qi ∈ qi_args qi :: map qi_args q));
        [|by left].
      by destruct (decide (qi_args qi ∈ map qi_args q)).
    + rewrite lookup_insert_ne by done.
      destruct (decide (l ∈ map qi_args q)) as [Hin|Hin].
      * rewrite decide_True; [done|by right].
      * rewrite decide_False; [done|]. intros [?|?]%elem_of_cons; done.
Qed.

Lemma after_queue_frame env (q : list job_item) : forall w,
  ui_menus (after_queue env q w) = ui_menus w
  /\ script_jobs (after_queue env q w) = script_jobs w
  /\ current_engine (after_queue env q w) = current_engine w
  /\ api_calls (after_queue env q w) = api_calls w.
Proof.
  induction q as [|qi q IH]; intros w; simpl; [done|].
  destruct (IH (after_item env qi w)) as (-> & -> & -> & ->). done.
Qed.

Lemma execute_queue_run env self w q fuel :
  _queue self = Some q ->
  (forall qi, qi ∈ q -> is_Some (heap w !! qi_args qi)) ->
  (length q <= fuel)%nat ->
  exists self',
    execute_queue env fuel (self, w)
    = ((self',
        after_queue env q
          (with_console (fun c => c ++ warning_lines env deprecation_notice) w)),
       inr (Some tt))
    /\ _queue self' = Some [].
Proof.
  intros Hq Hheap Hfuel.
  unfold execute_queue.
  unfold bind at 1. unfold get_self, gets; simpl.
  unfold bind at 1. unfold in_world; simpl. rewrite log_warning_run.
  unfold bind at 1. unfold set_self, modify; simpl.
  edestruct (while_queue_run env (gMainProgressBar env) q fuel)
    as (self' & Hrun & Hq' & _); last first.
  - exists self'. rewrite Hrun. auto.
  - done.
  - intros qi Hin. destruct w. by apply Hheap.
  - by destruct self.
  - by destruct self.
Qed.

Lemma set_queue_same self q : _queue self = Some q -> set_queue q self = self.
Proof. destruct self; simpl; intros ->; reflexivity. Qed.

Lemma add_to_queue_run env name method args self w q :
  _queue self = Some q ->
  add_to_queue env name method args (self, w)
  = ((set_queue (q ++ [QueueItem name method args]) self,
      with_console (fun c => c ++ warning_lines env deprecation_notice) w),
     inr tt).
Proof.
  intros Hq.
  unfold add_to_queue, bind, get_self, gets, in_world, set_self, modify; simpl.
  by rewrite log_warning_run, Hq.
Qed.

Lemma enqueue_all_run env (items : list job_item) : forall self w q,
  _queue self = Some q ->
  enqueue_all env items (self, w)
  = ((set_queue (q ++ items) self,
      with_console (fun c => c ++ enqueue_notices env items) w),
     inr tt).
Proof.
  induction items as [|qi items IH]; intros self w q Hq.
  - unfold enqueue_all, enqueue_notices; simpl. unfold ret.
    by rewrite app_nil_r, set_queue_same, with_console_nil.
  - unfold enqueue_all. simpl. unfold bind.
    rewrite (add_to_queue_run env _ _ _ self w q Hq).
    fold (enqueue_all env items).
    rewrite (IH _ _ (q ++ [QueueItem (qi_name qi) (qi_method qi) (qi_args qi)]));
      [|by destruct self].
    rewrite with_console_app, <- app_assoc. by destruct qi, self.
Qed.

Lemma enqueue_drain_run env self w q items fuel :
  _queue self = Some q ->
  (forall qi, qi ∈ q ++ items -> is_Some (heap w !! qi_args qi)) ->
  (length (q ++ items) <= fuel)%nat ->
  exists self',
    (enqueue_all env items ;; execute_queue env fuel) (self, w)
    = ((self',
        after_queue env (q ++ items)
          (with_console
             (fun c => c ++ enqueue_notices env items
                         ++ warning_lines env deprecation_notice) w)),
       inr (Some tt))
    /\ _queue self' = Some [].
Proof.
  intros Hq Hheap Hfuel. unfold bind.
  rewrite (enqueue_all_run env items self w q Hq).
  destruct (execute_queue_run env (set_queue (q ++ items) self)
              (with_console (fun c => c ++ enqueue_notices env items) w)
              (q ++ items) fuel) as (self' & Hrun & Hq');
    [by destruct self | by destruct w | done |].
  exists self'. by rewrite Hrun, with_console_app.
Qed.

(** ** Running the pieces of the scene callback *)

Lemma reset_disabled_menu_run w :
  reset_disabled_menu w = (with_ui_menus (delete "TankMenuDisabled") w, inr tt).
Proof.
  unfold reset_disabled_menu, bind, menu_exists, gets, deleteUI, ret.
  destruct (ui_menus w !! "TankMenuDisabled") as [items|] eqn:Hd; simpl.
  - by rewrite Hd.
  - f_equal. destruct w; unfold with_ui_menus; simpl in *. by rewrite delete_id.
Qed.

(** The disabled menu can only be made where there is none. *)
Lemma create_tank_disabled_menu_cases w :
  create_tank_disabled_menu w
  = match ui_menus w !! "TankMenuDisabled" with
    | None =>
        (with_ui_menus
           (fun m => <["TankMenuDisabled" := disabled_menu_items]> (delete "TankMenu" m))
           w,
         inr tt)
    | Some _ =>
        (with_ui_menus (delete "TankMenu") w,
         inl (RuntimeError "Object's name 'TankMenuDisabled' is not unique."))
    end.
Proof.
  unfold create_tank_disabled_menu, bind, menu_exists, gets, deleteUI, menu,
    menuItem, modify, ret.
  destruct (ui_menus w !! "TankMenu") as [items|] eqn:Hm; simpl.
  - rewrite Hm; simpl. rewrite lookup_delete_ne by done.
    destruct (ui_menus w !! "TankMenuDisabled") as [d|] eqn:Hd; simpl; [done|].
    f_equal. world_eq. by rewrite lookup_insert_eq, insert_insert_eq.
  - destruct (ui_menus w !! "TankMenuDisabled") as [d|] eqn:Hd; simpl.
    + f_equal. world_eq. by rewrite delete_id.
    + f_equal. world_eq. by rewrite lookup_insert_eq, insert_insert_eq, delete_id.
Qed.

Lemma create_tank_disabled_menu_run w :
  ui_menus w !! "TankMenuDisabled" = None ->
  create_tank_disabled_menu w
  = (with_ui_menus
       (fun m => <["TankMenuDisabled" := disabled_menu_items]> (delete "TankMenu" m)) w,
     inr tt).
Proof. intros Hd. by rewrite create_tank_disabled_menu_cases, Hd. Qed.

Lemma destroy_run env self w w' r :
  destroy env self w = (w', r) ->
  api_calls w' = api_calls w ++ [CallDestroy (instance_name self)]
  /\ (forall name, ui_menus w !! name = None -> ui_menus w' !! name = None)
  /\ match r with
     | inl _ => current_engine w' = current_engine w
     | inr _ => current_engine w' = None
     end.
Proof.
  unfold destroy, bind, record_call, modify; simpl.
  destruct (destroy_fails env (instance_name self)) as [e|].
  { intros [= <- <-]. by destruct w. }
  unfold destroy_engine, bind. rewrite log_debug_run.
  destruct (_menu_handle self) as [handle|].
  - unfold deleteUI; simpl.
    destruct (ui_menus w !! handle) as [items|] eqn:Hm; intros [= <- <-]; simpl.
    + split; [done|]. split; [|done]. intros name Hname.
      destruct (decide (handle = name)) as [->|Hne];
        [by rewrite lookup_delete_eq | by rewrite lookup_delete_ne].
    + by destruct w.
  - unfold raise. intros [= <- <-]. by destruct w.
Qed.

Lemma destroy_ok env self handle w :
  destroy_fails env (instance_name self) = None ->
  _menu_handle self = Some handle ->
  is_Some (ui_menus w !! handle) ->
  destroy env self w = (destroyed env self handle w, inr tt).
Proof.
  intros Hfail Hh [items Hm].
  unfold destroy, bind, record_call, modify; simpl. rewrite Hfail.
  unfold destroy_engine, bind. rewrite log_debug_run, Hh.
  unfold deleteUI; simpl. by rewrite Hm.
Qed.

#[local] Arguments debug_lines : simpl never.
#[local] Arguments info_lines : simpl never.
#[local] Arguments warning_lines : simpl never.

(** ** Computations that leave the session alone *)

Lemma same_session_refl w : same_session w w.
Proof. by repeat split. Qed.

Lemma same_session_trans w1 w2 w3 :
  same_session w1 w2 -> same_session w2 w3 -> same_session w1 w3.
Proof. intros (? & ? & ?) (? & ? & ?). repeat split; congruence. Qed.

Lemma keeps_ret {A} (a : A) : keeps_session (ret a).
Proof. intros w. apply same_session_refl. Qed.

Lemma keeps_raise {A} (e : exn) : keeps_session (@raise World A e).
Proof. intros w. apply same_session_refl. Qed.

Lemma keeps_bind {A B} (m : M World A) (k : A -> M World B) :
  keeps_session m -> (forall a, keeps_session (k a)) -> keeps_session (bind m k).
Proof.
  intros Hm Hk w. unfold bind. specialize (Hm w).
  destruct (m w) as [w1 [e|a]]; simpl in *; [done|].
  eapply same_session_trans; [exact Hm | apply Hk].
Qed.

Lemma keeps_for_each {A} (xs : list A) (f : A -> M World unit) :
  (forall x, keeps_session (f x)) -> keeps_session (for_each xs f).
Proof.
  intros Hf. induction xs as [|x xs IH]; simpl.
  - apply keeps_ret.
  - apply keeps_bind; auto.
Qed.

Lemma keeps_displayInfo s : keeps_session (displayInfo s).
Proof. intros w. by destruct w. Qed.

Lemma keeps_displayWarning s : keeps_session (displayWarning s).
Proof. intros w. by destruct w. Qed.

Lemma keeps_displayError s : keeps_session (displayError s).
Proof. intros w. by destruct w. Qed.

Lemma keeps_scriptJob kind en pc : keeps_session (scriptJob kind en pc).
Proof. intros w. by destruct w. Qed.

Lemma keeps_maya_project p : keeps_session (modify (with_maya_project p)).
Proof. intros w. by destruct w. Qed.

Lemma keeps_sys_path_append p : keeps_session (sys_path_append p).
Proof. intros w. by destruct w. Qed.

Lemma keeps_environ_get key fallback : keeps_session (environ_get key fallback).
Proof. intros w. by destruct w. Qed.

Lemma keeps_environ_set key value : keeps_session (environ_set key value).
Proof. intros w. by destruct w. Qed.

Lemma keeps_try_except_else {A B} (body : M World A) (catches : exn -> bool)
    (handler : exn -> M World B) (orelse : A -> M World B) :
  keeps_session body ->
  (forall e, keeps_session (handler e)) ->
  (forall a, keeps_session (orelse a)) ->
  keeps_session (try_except_else body catches handler orelse).
Proof.
  intros Hb Hh Ho w. unfold try_except_else. specialize (Hb w).
  destruct (body w) as [w1 [e|a]]; simpl in *.
  - destruct (catches e); [|done].
    eapply same_session_trans; [exact Hb | apply Hh].
  - eapply same_session_trans; [exact Hb | apply Ho].
Qed.

Lemma keeps_log_debug env self msg : keeps_session (log_debug env self msg).
Proof.
  unfold log_debug. destruct (debug_logging self); [|apply keeps_ret].
  apply keeps_for_each, keeps_displayInfo.
Qed.

Lemma keeps_log_info env self msg : keeps_session (log_info env self msg).
Proof. apply keeps_for_each, keeps_displayInfo. Qed.

Lemma keeps_log_error self msg : keeps_session (log_error self msg).
Proof. apply keeps_displayError. Qed.

Create HintDb keeps.
#[local] Hint Resolve keeps_ret keeps_raise keeps_displayInfo keeps_displayWarning
  keeps_displayError keeps_scriptJob keeps_maya_project keeps_log_debug
  keeps_log_info keeps_log_error keeps_sys_path_append keeps_environ_get
  keeps_environ_set : keeps.

Ltac keeps_step :=
  match goal with
  | |- keeps_session (bind _ _) => apply keeps_bind; [|intros ?]
  | |- keeps_session (try_except_else _ _ _ _) =>
      apply keeps_try_except_else; [|intros ?|intros ?]
  | |- keeps_session (match ?x with _ => _ end) => destruct x
  | |- keeps_session _ => solve [auto with keeps]
  end.

Lemma keeps_set_project env self : keeps_session (_set_project env self).
Proof. unfold _set_project. repeat keeps_step. Qed.

Lemma keeps_init_pyside env self : keeps_session (_init_pyside env self).
Proof.
  unfold _init_pyside, import_PySide, try_except. cbv zeta. repeat keeps_step.
Qed.

#[local] Hint Resolve keeps_set_project keeps_init_pyside : keeps.

Lemma keeps_init_engine env self : keeps_session (init_engine env self).
Proof. unfold init_engine. repeat keeps_step. Qed.

Lemma start_engine_run env en tk ctx w w' r :
  start_engine env en tk ctx w = (w', r) ->
  api_calls w'
  = api_calls w ++ [CallStartEngine en tk ctx (instance_name <$> current_engine w)]
  /\ (forall name, name <> "TankMenu" -> ui_menus w' !! name = ui_menus w !! name)
  /\ match r with
     | inl _ => current_engine w' = current_engine w /\ ui_menus w' = ui_menus w
     | inr self => current_engine w' = Some self
     end.
Proof.
  unfold start_engine. unfold bind at 1. unfold get_current_engine, gets; simpl.
  unfold bind at 1. unfold record_call, modify; simpl.
  set (w1 := with_api_calls _ w).
  destruct (start_engine_fails env en tk ctx) as [e|].
  { intros [= <- <-]. by destruct w. }
  set (self0 := MkEngine _ _ _ _ _ _ _ _).
  unfold bind at 1.
  pose proof (keeps_init_engine env self0 w1) as (Hm & He & Hc).
  destruct (init_engine env self0 w1) as [w2 [e|self1]]; simpl in *.
  { intros [= <- <-]. rewrite Hm, He, Hc. by destruct w. }
  unfold post_app_init, has_ui.
  destruct (about_batch env).
  { unfold ret. intros [= <- <-]. simpl. rewrite ?Hm, ?Hc. by destruct w. }
  unfold bind, menu.
  destruct (ui_menus w2 !! "TankMenu") as [items|] eqn:Ht.
  { intros [= <- <-]. rewrite Hm, He, Hc. by destruct w. }
  unfold modify, ret; simpl. intros [= <- <-]. simpl. rewrite ?Hm, ?Hc.
  split; [by destruct w|]. split; [|done].
  intros name Hname. rewrite lookup_insert_ne by done. by destruct w.
Qed.


Lemma teardown_run env pc ctx w w1 r1 :
  teardown env (current_engine w) pc ctx w = (w1, r1) ->
  api_calls w1 = api_calls w ++ teardown_calls (current_engine w)
  /\ (forall name, ui_menus w !! name = None -> ui_menus w1 !! name = None)
  /\ match r1 with
     | inl _ => True
     | inr _ => current_engine w1 = None
     end.
Proof.
  unfold teardown. destruct (current_engine w) as [ce|] eqn:Hce; simpl.
  - unfold bind. rewrite !log_debug_run. intros Hrun.
    apply destroy_run in Hrun as (Hc & Hm & He). simpl in *.
    split; [done|]. split; [done|]. by destruct r1.
  - intros [= <- <-]. by rewrite app_nil_r.
Qed.

Lemma switch_engine_run env en pc tk ctx w w' r :
  switch_engine env (current_engine w) en pc tk ctx w = (w', r) ->
  ui_menus w !! "TankMenuDisabled" = None ->
  (exists tail,
      api_calls w' = api_calls w ++ teardown_calls (current_engine w) ++ tail
      /\ (tail = [] \/ tail = [CallStartEngine en tk ctx None])
      /\ (snd (teardown env (current_engine w) pc ctx w) = inr tt ->
          tail = [CallStartEngine en tk ctx None]))
  /\ one_affordance w'
  /\ (r = inr tt -> (live_sessions w' + disabled_markers w' = 1)%nat).
Proof.
  intros Hrun Hnone.
  unfold switch_engine in Hrun.
  unfold bind at 1 in Hrun.
  destruct (teardown env (current_engine w) pc ctx w) as [w1 r1] eqn:Hteardown.
  apply teardown_run in Hteardown as (Hc1 & Hm1 & He1).
  specialize (Hm1 _ Hnone).
  destruct r1 as [e|[]].
  { injection Hrun as <- <-. split; [|split; [|done]].
    - exists []. rewrite app_nil_r. split; [done|]. split; [by left|]. simpl. intros [=].
    - intros [_ [? Hd]]. congruence. }
  unfold try_except_else in Hrun.
  destruct (start_engine env en tk ctx w1) as [w2 r2] eqn:Hstart.
  apply start_engine_run in Hstart as (Hc2 & Hm2 & Hr2).
  rewrite He1 in Hc2; simpl in Hc2.
  assert (Hcalls : api_calls w2
                   = api_calls w ++ teardown_calls (current_engine w)
                     ++ [CallStartEngine en tk ctx None])
    by (by rewrite Hc2, Hc1, <- app_assoc).
  assert (Hd2 : ui_menus w2 !! "TankMenuDisabled" = None)
    by (by rewrite Hm2).
  destruct r2 as [e|self].
  - destruct Hr2 as [He2 Hmenus2].
    destruct (is_TankEngineInitError e).
    + unfold bind in Hrun. unfold displayInfo, scriptJob, modify in Hrun.
      rewrite create_tank_disabled_menu_run in Hrun by (by destruct w2).
      simpl in Hrun.
      injection Hrun as <- <-. simpl. split; [|split].
      * eexists. split; [exact Hcalls|]. split; [by right|done].
      * intros [[? Ht] _]. simpl in Ht.
        rewrite lookup_insert_ne, lookup_delete_eq in Ht; done.
      * intros _. unfold live_sessions, disabled_markers; simpl.
        rewrite He2, He1. by rewrite lookup_insert_eq.
    + injection Hrun as <- <-. split; [|split; [|done]].
      * eexists. split; [exact Hcalls|]. split; [by right|done].
      * intros [_ [? Hd]]. congruence.
  - rewrite log_debug_run in Hrun. injection Hrun as <- <-. simpl. split; [|split].
    + eexists. split; [exact Hcalls|]. split; [by right|done].
    + intros [_ [? Hd]]. simpl in Hd. congruence.
    + intros _. unfold live_sessions, disabled_markers; simpl.
      by rewrite Hr2, Hd2.
Qed.

(** ** The paths through the scene callback *)

Lemma try_unsaved env en pc w :
  scene_name w = "" ->
  on_scene_event_try env en pc w = (reset_world w, inr tt).
Proof.
  intros Hname.
  unfold on_scene_event_try, bind, get_current_engine, gets, sceneName.
  rewrite reset_disabled_menu_run. simpl. by rewrite Hname.
Qed.

Lemma try_tank_error env en pc w e :
  scene_name w <> "" ->
  tank_from_path env (scene_path env w) = inl e ->
  on_scene_event_try env en pc w
  = if is_TankError e then
      (with_ui_menus
         (fun m => <["TankMenuDisabled" := disabled_menu_items]> (delete "TankMenu" m))
         (with_console (fun c => c ++ [cannot_start e]) (unresolved_world env w)),
       inr tt)
    else (unresolved_world env w, inl e).
Proof.
  intros Hname Htank. apply String.eqb_neq in Hname.
  unfold on_scene_event_try, bind, get_current_engine, gets, sceneName.
  rewrite reset_disabled_menu_run. simpl. rewrite Hname.
  unfold try_except_else, call_tank_from_path, bind, record_call, modify; simpl.
  fold (scene_path env w). rewrite Htank. unfold raise.
  destruct (is_TankError e); [|done].
  unfold displayInfo, modify.
  by rewrite create_tank_disabled_menu_run by (simpl; apply lookup_delete_eq).
Qed.

Lemma try_resolved env en pc w tk :
  scene_name w <> "" ->
  tank_from_path env (scene_path env w) = inr tk ->
  on_scene_event_try env en pc w
  = match context_from_path env tk (scene_path env w) pc with
    | inl e => (resolved_world env pc tk w, inl e)
    | inr ctx =>
        if bool_decide (is_Some (current_engine w)) && bool_decide (ctx = pc)
        then (resolved_world env pc tk w, inr tt)
        else switch_engine env (current_engine w) en pc tk ctx (resolved_world env pc tk w)
    end.
Proof.
  intros Hname Htank. apply String.eqb_neq in Hname.
  unfold on_scene_event_try, bind, get_current_engine, gets, sceneName.
  rewrite reset_disabled_menu_run. simpl. rewrite Hname.
  unfold try_except_else, call_tank_from_path, call_context_from_path, bind,
    record_call, modify; simpl.
  fold (scene_path env w). rewrite Htank. unfold ret.
  assert (Hw : with_api_calls
                 (fun cs => cs ++ [CallContextFromPath tk (scene_path env w) pc])
                 (with_api_calls (fun cs => cs ++ [CallTankFromPath (scene_path env w)])
                    (with_ui_menus (delete "TankMenuDisabled") w))
               = resolved_world env pc tk w).
  { destruct w; unfold resolved_world, reset_world, with_api_calls, with_ui_menus; simpl.
    by rewrite <- app_assoc. }
  rewrite Hw.
  destruct (context_from_path env tk (scene_path env w) pc) as [e|ctx]; [done|].
  by destruct (bool_decide (is_Some (current_engine w)) && bool_decide (ctx = pc)).
Qed.

Lemma on_scene_event_cb_run env en pc w :
  on_scene_event_cb env en pc w
  = match on_scene_event_try env en pc w with
    | (w1, inr _) => (w1, inr tt)
    | (w1, inl e) =>
        if is_Exception e
        then (with_console (fun c => c ++ [DisplayError (problem_message e)]) w1, inr tt)
        else (w1, inl e)
    end.
Proof.
  unfold on_scene_event_cb, try_except, try_except_else.
  by destruct (on_scene_event_try env en pc w) as [w1 [e|[]]].
Qed.

(** The outermost handler only writes to the console. *)
Lemma on_scene_event_cb_fst {X} (f : World -> X) env en pc w :
  (forall l w0, f (with_console l w0) = f w0) ->
  f (fst (on_scene_event_cb env en pc w)) = f (fst (on_scene_event_try env en pc w)).
Proof.
  intros Hf. rewrite on_scene_event_cb_run.
  destruct (on_scene_event_try env en pc w) as [w1 [e|[]]]; [|done].
  destruct (is_Exception e); [apply Hf | done].
Qed.

Lemma reset_world_no_disabled w : ui_menus (reset_world w) !! "TankMenuDisabled" = None.
Proof. destruct w; simpl. apply lookup_delete_eq. Qed.

(** Whatever path is taken, the body of the callback leaves at most one
    of the two menus. *)
Lemma try_one_affordance env en pc w :
  one_affordance (fst (on_scene_event_try env en pc w)).
Proof.
  pose proof (reset_world_no_disabled w) as Hreset.
  destruct (decide (scene_name w = "")) as [Hname|Hname].
  { rewrite try_unsaved by done. simpl. intros [_ [? Hd]]. congruence. }
  destruct (tank_from_path env (scene_path env w)) as [e|tk] eqn:Htank.
  { rewrite (try_tank_error env en pc w e) by done.
    destruct (is_TankError e); simpl.
    - intros [[? Ht] _]. simpl in Ht.
      rewrite lookup_insert_ne, lookup_delete_eq in Ht; done.
    - intros [_ [? Hd]]. simpl in Hd. destruct w; simpl in *. congruence. }
  rewrite (try_resolved env en pc w tk) by done.
  assert (Hres : ui_menus (resolved_world env pc tk w) !! "TankMenuDisabled" = None)
    by (by destruct w).
  destruct (context_from_path env tk (scene_path env w) pc) as [e|ctx].
  { simpl. intros [_ [? Hd]]. congruence. }
  destruct (bool_decide (is_Some (current_engine w)) && bool_decide (ctx = pc)).
  { simpl. intros [_ [? Hd]]. congruence. }
  assert (Hce : current_engine w = current_engine (resolved_world env pc tk w))
    by (by destruct w).
  rewrite Hce.
  destruct (switch_engine _ _ _ _ _ _ _) as [w' r] eqn:Hrun.
  by apply switch_engine_run in Hrun as (_ & Hone & _).
Qed.

(** ** Text of the error report *)











(** * Properties of the specification *)

(** C1 (counterexample).  In the disabled state, an event for an unsaved
    scene removes the disabled menu and starts nothing: before the event
    the count of live sessions and disabled markers is 1, after it 0. *)
Lemma disabled_unsaved_leaves_nothing :
  let w := world_disabled "" in
  let w' := fst (on_scene_event_cb demo_env "tk-maya" ctx_shot10 w) in
  (live_sessions w + disabled_markers w = 1)%nat
  /\ (live_sessions w' + disabled_markers w' = 0)%nat.
Proof. vm_compute. done. Qed.

(** C1 (amended).  When the callback returns, the session menu and the
    disabled menu are never both there.  The count of live sessions plus
    disabled markers is exactly 1 after the no-op for an unchanged context
    and after a rebuild whose body ends without an unexpected error; for an
    unsaved scene it is the number of sessions that were live before. *)
Theorem scene_event_affordance_count env en pc w :
  let w' := fst (on_scene_event_cb env en pc w) in
  one_affordance w'
  /\ (forall tk,
        is_Some (current_engine w) ->
        scene_name w <> "" ->
        tank_from_path env (scene_path env w) = inr tk ->
        context_from_path env tk (scene_path env w) pc = inr pc ->
        (live_sessions w' + disabled_markers w' = 1)%nat)
  /\ (forall tk ctx,
        scene_name w <> "" ->
        tank_from_path env (scene_path env w) = inr tk ->
        context_from_path env tk (scene_path env w) pc = inr ctx ->
        current_engine w = None \/ ctx <> pc ->
        snd (on_scene_event_try env en pc w) = inr tt ->
        (live_sessions w' + disabled_markers w' = 1)%nat)
  /\ (scene_name w = "" ->
      (live_sessions w' + disabled_markers w')%nat = live_sessions w).
Proof.
  intros w'. subst w'. rewrite on_scene_event_cb_run.
  split; [|split; [|split]].
  - pose proof (try_one_affordance env en pc w) as Hone.
    destruct (on_scene_event_try env en pc w) as [w1 [e|[]]]; simpl in *; [|done].
    destruct (is_Exception e); [by destruct w1 | done].
  - intros tk [ce Hce] Hname Htank Hctx.
    rewrite (try_resolved env en pc w tk), Hctx by done.
    rewrite Hce. rewrite !bool_decide_true by eauto. simpl.
    unfold live_sessions, disabled_markers.
    destruct w; simpl in *. by rewrite Hce, lookup_delete_eq.
  - intros tk ctx Hname Htank Hctx Hrebuild.
    rewrite (try_resolved env en pc w tk), Hctx by done.
    assert (Hdecide : bool_decide (is_Some (current_engine w)) && bool_decide (ctx = pc)
                      = false).
    { destruct Hrebuild as [->|Hne].
      - rewrite bool_decide_false; [done|]. by intros [? ?].
      - rewrite (bool_decide_false (ctx = pc)) by done. apply andb_false_r. }
    rewrite Hdecide.
    assert (Hce : current_engine w = current_engine (resolved_world env pc tk w))
      by (by destruct w).
    rewrite Hce.
    destruct (switch_engine _ _ _ _ _ _ _) as [w1 r] eqn:Hrun. simpl.
    intros ->.
    apply switch_engine_run in Hrun as (_ & _ & Hcount); [by apply Hcount|].
    destruct w; simpl. apply lookup_delete_eq.
  - intros Hname. rewrite try_unsaved by done. simpl.
    unfold live_sessions, disabled_markers.
    destruct w; simpl. rewrite lookup_delete_eq. lia.
Qed.

Lemma scene_event_affordance_count_witness :
  let count w := (live_sessions w + disabled_markers w)%nat in
  let after scene :=
    fst (on_scene_event_cb demo_env "tk-maya" ctx_shot10 (world_active scene)) in
  count (after "/projects/demo/shot10/scene.ma") = 1%nat
  /\ count (after "/projects/demo/shot20/scene.ma") = 1%nat
  /\ count (after "/projects/demo/shot30/scene.ma") = 1%nat
  /\ count (after "") = live_sessions (world_active "").
Proof.
  split; [|split; [|split]].
  - apply (proj1 (proj2 (scene_event_affordance_count demo_env "tk-maya" ctx_shot10
                           (world_active "/projects/demo/shot10/scene.ma")))
             tk_demo);
      [vm_compute; eauto | discriminate | reflexivity | reflexivity].
  - apply (proj1 (proj2 (proj2 (scene_event_affordance_count demo_env "tk-maya"
                                  ctx_shot10
                                  (world_active "/projects/demo/shot20/scene.ma"))))
             tk_demo ctx_shot20);
      [discriminate | reflexivity | reflexivity | right; discriminate
      | vm_compute; reflexivity].
  - apply (proj1 (proj2 (proj2 (scene_event_affordance_count demo_env "tk-maya"
                                  ctx_shot10
                                  (world_active "/projects/demo/shot30/scene.ma"))))
             tk_demo ctx_shot30);
      [discriminate | reflexivity | reflexivity | right; discriminate
      | vm_compute; reflexivity].
  - apply (proj2 (proj2 (proj2 (scene_event_affordance_count demo_env "tk-maya"
                                  ctx_shot10 (world_active ""))))).
    reflexivity.
Defined.

(** C2 (counterexample).  The disabled menu shown before an event for an
    unsaved scene is gone after it. *)
Lemma unsaved_scene_removes_disabled_menu :
  let w := world_disabled "" in
  let w' := fst (on_scene_event_cb demo_env "tk-maya" ctx_shot10 w) in
  ui_menus w !! "TankMenuDisabled" = Some ["Tank is disabled."]
  /\ ui_menus w' !! "TankMenuDisabled" = None.
Proof. vm_compute. done. Qed.

(** C2 (amended).  For an unsaved scene the callback resolves nothing and
    returns; the engine, its menu, the script jobs and the console are as
    before, and the only change is that the disabled menu, if it was shown,
    is removed. *)
Theorem unsaved_scene_keeps_session env en pc w :
  scene_name w = "" ->
  on_scene_event_cb env en pc w
  = (with_ui_menus (delete "TankMenuDisabled") w, inr tt)
  /\ let w' := fst (on_scene_event_cb env en pc w) in
     api_calls w' = api_calls w
     /\ current_engine w' = current_engine w
     /\ ui_menus w' !! "TankMenu" = ui_menus w !! "TankMenu"
     /\ ui_menus w' !! "TankMenuDisabled" = None
     /\ script_jobs w' = script_jobs w
     /\ console w' = console w.
Proof.
  intros Hname. rewrite on_scene_event_cb_run, try_unsaved by done.
  split; [done|]. destruct w; simpl.
  by rewrite lookup_delete_eq, lookup_delete_ne.
Qed.

Lemma unsaved_scene_keeps_session_witness :
  scene_name (world_active "") = ""
  /\ on_scene_event_cb demo_env "tk-maya" ctx_shot10 (world_active "")
     = (with_ui_menus (delete "TankMenuDisabled") (world_active ""), inr tt).
Proof.
  split; [reflexivity|].
  apply (unsaved_scene_keeps_session demo_env "tk-maya" ctx_shot10 (world_active "")).
  reflexivity.
Defined.

(** C3 (the defect, run).  An engine for shot 10 is running and both
    listeners are registered.  The scene is saved where it is: SceneSaved
    fires, the context is unchanged, the callback returns.  Afterwards no
    SceneSaved listener is registered, so when the scene is then saved into
    the folder of shot 20 no callback runs: no further API call is made and
    the engine of shot 10 stays.  In the same way SceneOpened for an unsaved
    scene leaves no SceneOpened listener. *)
Theorem early_return_drops_listener :
  let w1 := fst (fire_event demo_env SceneSaved
                   (world_active "/projects/demo/shot10/scene.ma")) in
  let w2 := fst (fire_event demo_env SceneSaved
                   (with_scene_name "/projects/demo/shot20/scene.ma" w1)) in
  let w3 := fst (fire_event demo_env SceneOpened (world_active "")) in
  script_jobs w1 = [ScriptJob SceneOpened "tk-maya" ctx_shot10]
  /\ filter (fun j => job_event j = SceneSaved) (script_jobs w1) = []
  /\ api_calls w2 = api_calls w1
  /\ (context <$> current_engine w2) = Some ctx_shot10
  /\ script_jobs w3 = [ScriptJob SceneSaved "tk-maya" ctx_shot10]
  /\ filter (fun j => job_event j = SceneOpened) (script_jobs w3) = [].
Proof. vm_compute. done. Qed.

(** C4.  When a rebuild is decided while an engine is running, the calls
    the callback adds are: resolve the path, resolve the context, destroy
    the running engine, and only then, if at all, start the new one; at the
    moment [start_engine] is called no engine is current.  If the teardown
    goes through, [start_engine] is called. *)
Theorem switch_destroys_before_start env en pc w ce tk ctx :
  current_engine w = Some ce ->
  scene_name w <> "" ->
  tank_from_path env (scene_path env w) = inr tk ->
  context_from_path env tk (scene_path env w) pc = inr ctx ->
  ctx <> pc ->
  let w' := fst (on_scene_event_cb env en pc w) in
  exists tail,
    api_calls w'
    = api_calls w
      ++ [CallTankFromPath (scene_path env w);
          CallContextFromPath tk (scene_path env w) pc;
          CallDestroy (instance_name ce)]
      ++ tail
    /\ (tail = [] \/ tail = [CallStartEngine en tk ctx None])
    /\ (destroy_fails env (instance_name ce) = None ->
        _menu_handle ce = Some "TankMenu" ->
        is_Some (ui_menus w !! "TankMenu") ->
        tail = [CallStartEngine en tk ctx None]).
Proof.
  intros Hce Hname Htank Hctx Hne w'. subst w'.
  rewrite on_scene_event_cb_run, (try_resolved env en pc w tk), Hctx by done.
  rewrite (bool_decide_false (ctx = pc)), andb_false_r by done.
  set (w0 := resolved_world env pc tk w).
  assert (Hce0 : current_engine w0 = Some ce) by (by destruct w).
  rewrite Hce, <- Hce0.
  destruct (switch_engine _ _ _ _ _ _ _) as [w1 r] eqn:Hrun.
  apply switch_engine_run in Hrun as ((tail & Hcalls & Htail & Hstart) & _);
    [|by destruct w; apply lookup_delete_eq].
  rewrite Hce0 in Hcalls, Hstart. simpl in Hcalls.
  exists tail. split; [|split; [done|]].
  - assert (Hw1 : api_calls w1
                  = api_calls w
                    ++ [CallTankFromPath (scene_path env w);
                        CallContextFromPath tk (scene_path env w) pc;
                        CallDestroy (instance_name ce)] ++ tail).
    { rewrite Hcalls. destruct w; simpl. by rewrite <- app_assoc. }
    destruct r as [e|[]]; simpl; [|done].
    destruct (is_Exception e); [by destruct w1 | done].
  - intros Hfail Hhandle Hmenu. apply Hstart.
    unfold teardown, bind. rewrite !log_debug_run.
    erewrite destroy_ok; [done..|].
    destruct Hmenu as [items Hitems]. exists items.
    destruct w; simpl in *. by rewrite lookup_delete_ne.
Qed.

Lemma switch_destroys_before_start_witness :
  let w := world_active "/projects/demo/shot20/scene.ma" in
  exists tail,
    api_calls (fst (on_scene_event_cb demo_env "tk-maya" ctx_shot10 w))
    = api_calls w
      ++ [CallTankFromPath (scene_path demo_env w);
          CallContextFromPath tk_demo (scene_path demo_env w) ctx_shot10;
          CallDestroy "tk-maya"]
      ++ tail
    /\ (tail = [] \/ tail = [CallStartEngine "tk-maya" tk_demo ctx_shot20 None])
    /\ (destroy_fails demo_env "tk-maya" = None ->
        _menu_handle engine_shot10 = Some "TankMenu" ->
        is_Some (ui_menus w !! "TankMenu") ->
        tail = [CallStartEngine "tk-maya" tk_demo ctx_shot20 None]).
Proof.
  apply (switch_destroys_before_start demo_env "tk-maya" ctx_shot10
           (world_active "/projects/demo/shot20/scene.ma")
           engine_shot10 tk_demo ctx_shot20);
    [reflexivity | discriminate | reflexivity | reflexivity | discriminate].
Defined.

(** C5.  When the resolved context equals [prev_context] and an engine is
    running, the callback returns after the two resolution calls: nothing
    is destroyed, nothing is started, the running engine, its menu, the
    script jobs and the console are as before. *)
Theorem unchanged_context_is_noop env en pc w ce tk :
  current_engine w = Some ce ->
  scene_name w <> "" ->
  tank_from_path env (scene_path env w) = inr tk ->
  context_from_path env tk (scene_path env w) pc = inr pc ->
  snd (on_scene_event_cb env en pc w) = inr tt
  /\ let w' := fst (on_scene_event_cb env en pc w) in
     api_calls w'
     = api_calls w ++ [CallTankFromPath (scene_path env w);
                       CallContextFromPath tk (scene_path env w) pc]
     /\ current_engine w' = Some ce
     /\ ui_menus w' !! "TankMenu" = ui_menus w !! "TankMenu"
     /\ script_jobs w' = script_jobs w
     /\ console w' = console w.
Proof.
  intros Hce Hname Htank Hctx.
  rewrite on_scene_event_cb_run, (try_resolved env en pc w tk), Hctx by done.
  rewrite Hce, !bool_decide_true by eauto. simpl.
  split; [done|]. destruct w; simpl in *. by rewrite lookup_delete_ne.
Qed.

Lemma unchanged_context_is_noop_witness :
  let w := world_active "/projects/demo/shot10/scene.ma" in
  snd (on_scene_event_cb demo_env "tk-maya" ctx_shot10 w) = inr tt
  /\ current_engine (fst (on_scene_event_cb demo_env "tk-maya" ctx_shot10 w))
     = Some engine_shot10.
Proof.
  destruct (unchanged_context_is_noop demo_env "tk-maya" ctx_shot10
              (world_active "/projects/demo/shot10/scene.ma") engine_shot10 tk_demo)
    as (Hret & _ & Hengine & _);
    [reflexivity | discriminate | reflexivity | reflexivity |].
  split; [exact Hret | exact Hengine].
Defined.

(** C6 (counterexample).  The file lies in the project, but its folder
    resolves to no context: [context_from_path] raises a [TankError].  The
    callback returns normally and no disabled menu is rendered. *)
Lemma context_failure_renders_no_disabled_menu :
  let w := world_active "/projects/demo/assets/scene.ma" in
  let r := on_scene_event_cb demo_env "tk-maya" ctx_shot10 w in
  tank_from_path demo_env (scene_path demo_env w) = inr tk_demo
  /\ context_from_path demo_env tk_demo (scene_path demo_env w) ctx_shot10
     = inl no_context_error
  /\ snd r = inr tt
  /\ ui_menus (fst r) !! "TankMenuDisabled" = None.
Proof. vm_compute. done. Qed.

(** C6 (amended).  When [tank_from_path] raises a [TankError] for the
    scene path, the callback tells the user, renders the disabled menu and
    returns normally.  When [context_from_path] raises, the callback also
    returns normally, but the error goes to the outermost handler: it is
    shown on the error channel and no disabled menu is rendered.  (This is
    so for every class that derives from [Exception], as [TankError] does;
    what does not is passed on by that handler and shows nothing.) *)
Theorem unrecognized_path_disables env en pc w :
  scene_name w <> "" ->
  let r := on_scene_event_cb env en pc w in
  (forall e,
      tank_from_path env (scene_path env w) = inl e ->
      is_TankError e = true ->
      snd r = inr tt
      /\ ui_menus (fst r) !! "TankMenuDisabled" = Some disabled_menu_items
      /\ ui_menus (fst r) !! "TankMenu" = None
      /\ console (fst r) = console w ++ [cannot_start e]
      /\ api_calls (fst r) = api_calls w ++ [CallTankFromPath (scene_path env w)])
  /\ (forall tk e,
        tank_from_path env (scene_path env w) = inr tk ->
        context_from_path env tk (scene_path env w) pc = inl e ->
        snd r = (if is_Exception e then inr tt else inl e)
        /\ ui_menus (fst r) !! "TankMenuDisabled" = None
        /\ console (fst r)
           = console w ++ (if is_Exception e then [DisplayError (problem_message e)]
                           else [])).
Proof.
  intros Hname r. subst r. rewrite on_scene_event_cb_run. split.
  - intros e Htank He. rewrite (try_tank_error env en pc w e), He by done.
    destruct w; simpl.
    by rewrite lookup_insert_eq, lookup_insert_ne, lookup_delete_eq.
  - intros tk e Htank Hctx. rewrite (try_resolved env en pc w tk), Hctx by done.
    destruct (is_Exception e); destruct w; simpl;
      by rewrite lookup_delete_eq, ?app_nil_r.
Qed.

Lemma unrecognized_path_disables_witness :
  let lost := on_scene_event_cb demo_env "tk-maya" ctx_shot10
                (world_active "/home/artist/scratch.ma") in
  let unresolved := on_scene_event_cb demo_env "tk-maya" ctx_shot10
                      (world_active "/projects/demo/assets/scene.ma") in
  (snd lost = inr tt
   /\ ui_menus (fst lost) !! "TankMenuDisabled" = Some disabled_menu_items)
  /\ (snd unresolved = inr tt
      /\ ui_menus (fst unresolved) !! "TankMenuDisabled" = None).
Proof.
  split.
  - destruct (proj1 (unrecognized_path_disables demo_env "tk-maya" ctx_shot10
                       (world_active "/home/artist/scratch.ma") ltac:(discriminate))
                (unknown_path_error "/home/artist/scratch.ma"))
      as (Hret & Hmenu & _); [reflexivity | reflexivity |].
    split; [exact Hret | exact Hmenu].
  - destruct (proj2 (unrecognized_path_disables demo_env "tk-maya" ctx_shot10
                       (world_active "/projects/demo/assets/scene.ma")
                       ltac:(discriminate))
                tk_demo no_context_error)
      as (Hret & Hmenu & _); [reflexivity | reflexivity |].
    split; [exact Hret | exact Hmenu].
Defined.





(** C8.  Jobs are handed to [add_to_queue] one after the other and the
    queue is then drained.  Every job, those that were already queued
    first, is run exactly once and in the order it was queued; a job that
    raises has its error logged, its progress bar is ended like that of any
    other job, the jobs behind it still run, and [execute_queue] returns
    normally with the queue empty. *)
Theorem execute_queue_fifo env self w q items fuel :
  _queue self = Some q ->
  (forall qi, qi ∈ q ++ items -> is_Some (heap w !! qi_args qi)) ->
  (length (q ++ items) <= fuel)%nat ->
  exists self' w',
    (enqueue_all env items ;; execute_queue env fuel) (self, w)
    = ((self', w'), inr (Some tt))
    /\ _queue self' = Some []
    /\ invoked w'
       = invoked w ++ map (fun qi => (qi, kwargs_in (heap w) qi)) (q ++ items)
    /\ progress_bar w'
       = progress_bar w
         ++ flat_map (fun qi => item_progress qi (kwargs_in (heap w) qi)) (q ++ items)
    /\ console w'
       = console w ++ enqueue_notices env items ++ warning_lines env deprecation_notice
         ++ flat_map (fun qi => item_errors env qi (kwargs_in (heap w) qi)) (q ++ items).
Proof.
  intros Hq Hheap Hfuel.
  destruct (enqueue_drain_run env self w q items fuel Hq Hheap Hfuel)
    as (self' & Hrun & Hq').
  eexists self', _. split; [exact Hrun|]. split; [exact Hq'|].
  rewrite after_queue_invoked, after_queue_progress_bar, after_queue_console.
  destruct w; simpl. by rewrite <- !app_assoc.
Qed.

Lemma demo_queue_heap qi :
  qi ∈ [] ++ demo_queue -> is_Some (heap world_queued !! qi_args qi).
Proof.
  intros Hin. unfold demo_queue in Hin. simpl in Hin.
  repeat (apply elem_of_cons in Hin as [->|Hin]); [vm_compute; eauto..|].
  by apply elem_of_nil in Hin.
Qed.

Lemma execute_queue_fifo_witness :
  exists self' w',
    (enqueue_all demo_env demo_queue ;; execute_queue demo_env 3)
      (engine_queued, world_queued)
    = ((self', w'), inr (Some tt))
    /\ _queue self' = Some []
    /\ map (fun c => qi_name (fst c)) (invoked w') = ["export"; "publish"; "notify"]
    /\ progress_bar w'
       = [BeginProgress "export"; StepProgress 0; StepProgress 40; StepProgress 60;
          EndProgress;
          BeginProgress "publish"; StepProgress 50; EndProgress;
          BeginProgress "notify"; EndProgress].
Proof.
  destruct (execute_queue_fifo demo_env engine_queued world_queued [] demo_queue 3)
    as (self' & w' & Hrun & Hq & Hinv & Hbar & _);
    [reflexivity | exact demo_queue_heap | simpl; lia |].
  exists self', w'. split; [exact Hrun|]. split; [exact Hq|].
  split; [rewrite Hinv | rewrite Hbar]; reflexivity.
Defined.

(** C10.  For every drained job the dictionary handed to [add_to_queue] is
    the one that receives the key [progress_callback]: afterwards that very
    heap object maps the key to the engine's [report_progress], whatever the
    caller had put there, every method was called with the key bound that
    way, and dictionaries no job refers to are as before. *)
Theorem execute_queue_forces_progress_callback env self w q items fuel :
  _queue self = Some q ->
  (forall qi, qi ∈ q ++ items -> is_Some (heap w !! qi_args qi)) ->
  (length (q ++ items) <= fuel)%nat ->
  exists self' w' calls,
    (enqueue_all env items ;; execute_queue env fuel) (self, w)
    = ((self', w'), inr (Some tt))
    /\ (forall qi d, qi ∈ q ++ items -> heap w !! qi_args qi = Some d ->
          heap w' !! qi_args qi
          = Some (<["progress_callback" := BoundReportProgress]> d))
    /\ invoked w' = invoked w ++ calls
    /\ map fst calls = q ++ items
    /\ Forall (fun c => snd c !! "progress_callback" = Some BoundReportProgress) calls
    /\ (forall l, (forall qi, qi ∈ q ++ items -> qi_args qi <> l) ->
          heap w' !! l = heap w !! l).
Proof.
  intros Hq Hheap Hfuel.
  destruct (enqueue_drain_run env self w q items fuel Hq Hheap Hfuel)
    as (self' & Hrun & Hq').
  eexists self', _, (map (fun qi => (qi, kwargs_in (heap w) qi)) (q ++ items)).
  split; [exact Hrun|].
  repeat split.
  - intros qi d Hin Hd. rewrite after_queue_heap.
    rewrite decide_True by (apply list_elem_of_fmap; eauto).
    destruct w; simpl in *. by rewrite Hd.
  - rewrite after_queue_invoked. by destruct w.
  - rewrite map_map. simpl. apply map_id.
  - apply Forall_forall. intros [qi kw] Hin.
    apply list_elem_of_fmap in Hin as (qi' & [= -> ->] & _). simpl.
    unfold kwargs_in, item_kwargs. apply lookup_insert_eq.
  - intros l Hl. rewrite after_queue_heap.
    rewrite decide_False; [by destruct w|].
    intros (qi & -> & Hin)%list_elem_of_fmap. by apply (Hl qi).
Qed.

Lemma execute_queue_forces_progress_callback_witness :
  exists self' w',
    (enqueue_all demo_env demo_queue ;; execute_queue demo_env 3)
      (engine_queued, world_queued)
    = ((self', w'), inr (Some tt))
    /\ heap w' !! 2%nat = Some {["progress_callback" := BoundReportProgress]}
    /\ heap w' !! 1%nat
       = Some (<["progress_callback" := BoundReportProgress]> export_kwargs).
Proof.
  destruct (execute_queue_forces_progress_callback demo_env engine_queued world_queued
              [] demo_queue 3)
    as (self' & w' & calls & Hrun & Hheap & _);
    [reflexivity | exact demo_queue_heap | simpl; lia |].
  exists self', w'. split; [exact Hrun|]. split.
  - apply (Hheap job_publish publish_kwargs); [|reflexivity].
    simpl. unfold demo_queue. apply elem_of_cons; right. apply elem_of_cons; by left.
  - apply (Hheap job_export export_kwargs); [|reflexivity].
    simpl. unfold demo_queue. apply elem_of_cons; by left.
Defined.

(** C9.  [report_progress] steps the progress bar by the difference between
    [percent] and the value stored last, and stores [percent]; each item
    starts from a stored 0, so an item reporting 0, 40 and 100 steps the bar
    by 0, 40 and 60. *)
Theorem report_progress_applies_delta env qi self w d bar last percent :
  _current_progress self = Some last ->
  _maya_progress_bar self = Some bar ->
  heap w !! qi_args qi = Some d ->
  report_progress percent (self, w)
  = ((set_current_progress percent self,
      with_progress_bar (fun ops => ops ++ [StepProgress (percent - last)]) w),
     inr tt)
  /\ progress_bar (snd (fst (process_item env qi (self, w))))
     = progress_bar w
       ++ BeginProgress (qi_name qi)
          :: map StepProgress (deltas 0 (reports (qi_method qi (item_kwargs d))))
          ++ [EndProgress]
  /\ (reports (qi_method qi (item_kwargs d)) = [0; 40; 100] ->
      progress_bar (snd (fst (process_item env qi (self, w))))
      = progress_bar w
        ++ [BeginProgress (qi_name qi); StepProgress 0; StepProgress 40;
            StepProgress 60; EndProgress]).
Proof.
  intros Hlast Hbar Hd. split; [|split].
  - unfold report_progress, bind, get_self, gets, set_self, modify, in_world,
      progressBar; simpl.
    by rewrite Hlast, Hbar.
  - rewrite (process_item_run env qi self w d bar Hd Hbar). simpl.
    unfold kwargs_in. by rewrite Hd.
  - intros Hreports.
    rewrite (process_item_run env qi self w d bar Hd Hbar). simpl.
    unfold kwargs_in, item_progress. rewrite Hd. simpl. by rewrite Hreports.
Qed.

Lemma report_progress_applies_delta_witness :
  report_progress 100 (engine_reporting, world_queued)
  = ((set_current_progress 100 engine_reporting,
      with_progress_bar (fun ops => ops ++ [StepProgress 60]) world_queued),
     inr tt)
  /\ progress_bar (snd (fst (process_item demo_env job_export
                                (engine_reporting, world_queued))))
     = [BeginProgress "export"; StepProgress 0; StepProgress 40; StepProgress 60;
        EndProgress].
Proof.
  destruct (report_progress_applies_delta demo_env job_export engine_reporting
              world_queued export_kwargs "mainProgressBar" 40 100)
    as (Hreport & _ & Hexample); [reflexivity | reflexivity | reflexivity |].
  split; [exact Hreport|].
  apply Hexample. reflexivity.
Defined.

(** * Further properties of the module *)

(** ** Starting up: [init_engine], [_set_project], [_init_pyside] *)

#[local] Arguments pyside_lines : simpl never.
#[local] Arguments pyside_paths : simpl never.
#[local] Arguments pyside_environ : simpl never.
#[local] Arguments pyside_escape : simpl never.
#[local] Arguments project_lines : simpl never.
#[local] Arguments project_after : simpl never.
#[local] Arguments init_lines : simpl never.
#[local] Arguments init_failure_lines : simpl never.
#[local] Arguments init_interrupted_lines : simpl never.
#[local] Arguments platform_supported : simpl never.
#[local] Arguments maya_supported : simpl never.

Lemma set_project_run env self w :
  _set_project env self w
  = match project_setup env self with
    | inl e => (w, inl e)
    | inr _ =>
        (with_maya_project (project_after env self w)
           (with_console (fun c => c ++ project_lines env self) w),
         inr tt)
    end.
Proof.
  unfold _set_project, project_setup, project_after, project_lines, project_setup.
  destruct (setting_template_project env (instance_name self)) as [setting|].
  - destruct (project_path env (tank self) (context self) setting) as [e|p]; [done|].
    unfold bind. rewrite log_info_run. unfold modify. by destruct w.
  - unfold ret. f_equal; try world_eq.
Qed.

(** The platforms [_init_pyside] knows are those it has a folder for. *)
Lemma pyside_folder_known env :
  bool_decide (sys_platform env ∈ ["darwin"; "win32"; "linux2"])
  = bool_decide (is_Some (pyside_folder env)).
Proof.
  unfold pyside_folder.
  destruct (String.eqb (sys_platform env) "darwin") eqn:Hd.
  { apply String.eqb_eq in Hd. rewrite Hd, !bool_decide_true; [done | eauto | by left]. }
  destruct (String.eqb (sys_platform env) "win32") eqn:Hw.
  { apply String.eqb_eq in Hw. rewrite Hw, !bool_decide_true; [done | eauto | by right; left]. }
  destruct (String.eqb (sys_platform env) "linux2") eqn:Hl.
  { apply String.eqb_eq in Hl. rewrite Hl, !bool_decide_true; [done | eauto | by right; right; left]. }
  apply String.eqb_neq in Hd, Hw, Hl.
  rewrite !bool_decide_false; [done | by intros [? ?] |].
  intros Hin. repeat (apply elem_of_cons in Hin as [?|Hin]; [done|]).
  by apply elem_of_nil in Hin.
Qed.

Lemma init_pyside_run env self w :
  _init_pyside env self w
  = (pyside_world env self w,
     match pyside_escape env with
     | Some e => inl e
     | None => inr tt
     end).
Proof.
  unfold pyside_world, pyside_lines. rewrite pyside_folder_known.
  unfold _init_pyside, pyside_paths, pyside_environ, pyside_escape, pyside_folder,
    pyside_dll_path, import_PySide.
  destruct (pyside_present env).
  { rewrite log_debug_run. f_equal; try world_eq. }
  unfold bind at 1. rewrite log_debug_run. cbv zeta.
  unfold try_except, try_except_else, bind, sys_path_append, environ_get,
    environ_set, log_error, displayError, modify, gets, raise, ret.
  destruct (String.eqb (sys_platform env) "darwin") eqn:Hd;
    [apply String.eqb_eq in Hd; rewrite ?Hd
    |destruct (String.eqb (sys_platform env) "win32") eqn:Hw;
      [apply String.eqb_eq in Hw; rewrite ?Hw
      |destruct (String.eqb (sys_platform env) "linux2") eqn:Hl;
        [apply String.eqb_eq in Hl; rewrite ?Hl|]]];
    (destruct (pyside_importable env) as [e|]; [destruct (is_Exception e)|]);
    simpl; rewrite ?bool_decide_true by eauto;
    rewrite ?bool_decide_false by (by intros [? ?]);
    f_equal; world_eq.
Qed.

Lemma init_engine_run env self w :
  init_engine env self w
  = match init_engine_error env self with
    | Some e => (with_console (fun c => c ++ init_failure_lines env self) w, inl e)
    | None =>
        match pyside_escape env with
        | Some e => (init_interrupted env self w, inl e)
        | None => (initialised env self w, inr (set_queue [] self))
        end
    end.
Proof.
  unfold init_engine_error, init_failure_lines, init_engine, platform_supported,
    maya_supported.
  unfold bind at 1. rewrite log_debug_run.
  destruct (bool_decide (about_operatingSystem env ∈ ["mac"; "win64"; "linux64"]));
    simpl; [|by rewrite app_nil_r].
  unfold bind at 1.
  destruct (String.prefix "2012" (about_version env)
            || String.prefix "2013" (about_version env));
    simpl; [|by rewrite app_nil_r].
  rewrite log_debug_run, with_console_app. unfold bind at 1.
  assert (Hrest : forall (loc1 : string) (locs : list string),
    (if (length (loc1 :: locs) =? 0)%nat
     then raise (tank_error ("No folders on disk are associated with the current context. The "
                       +:+ "engine requires a context which exists on disk in order to run "
                       +:+ "correctly."))
     else
       _set_project env (set_queue [] self);;
       _init_pyside env (set_queue [] self);;
       scriptJob SceneOpened (instance_name (set_queue [] self))
         (context (set_queue [] self));;
       scriptJob SceneSaved (instance_name (set_queue [] self))
         (context (set_queue [] self));;
       log_debug env (set_queue [] self) "Registered open and save callbacks.";;
       ret (set_queue [] self))
      (with_console
         (fun c => c ++ debug_lines env self
                          (str_engine env (instance_name self) +:+ ": Initializing...")
                     ++ debug_lines env self ("Running Maya version " +:+ about_version env))
         w)
    = match project_setup env self with
      | inl e =>
          (with_console
             (fun c => c ++ debug_lines env self
                              (str_engine env (instance_name self) +:+ ": Initializing...")
                         ++ debug_lines env self
                              ("Running Maya version " +:+ about_version env))
             w, inl e)
      | inr _ =>
          match pyside_escape env with
          | Some e => (init_interrupted env self w, inl e)
          | None => (initialised env self w, inr (set_queue [] self))
          end
      end).
  { intros loc1 locs. simpl. unfold bind at 1. rewrite set_project_run.
    change (project_setup env (set_queue [] self)) with (project_setup env self).
    destruct (project_setup env self) as [e|p] eqn:Hsetup; [done|].
    unfold bind at 1. rewrite init_pyside_run.
    destruct (pyside_escape env) as [e|].
    - f_equal. unfold init_interrupted, init_interrupted_lines, pyside_world,
        project_after, project_lines.
      change (project_setup env (set_queue [] self)) with (project_setup env self).
      rewrite Hsetup. world_eq.
    - unfold bind, scriptJob, modify, ret. rewrite log_debug_run.
      f_equal. unfold initialised, init_lines, pyside_world, project_after,
        project_lines.
      change (project_setup env (set_queue [] self)) with (project_setup env self).
      rewrite Hsetup. world_eq. }
  unfold engine_locations.
  destruct (entity (context self)) as [ent|].
  - unfold ret at 1.
    destruct (paths_from_entity env (tank self) (link_type ent) (link_id ent))
      as [|loc1 locs]; [done|].
    rewrite Hrest. by destruct (project_setup env self).
  - destruct (project (context self)) as [prj|]; [|done].
    unfold ret at 1.
    destruct (paths_from_entity env (tank self) (link_type prj) (link_id prj))
      as [|loc1 locs]; [done|].
    rewrite Hrest. by destruct (project_setup env self).
Qed.

Lemma init_engine_ok_error env self :
  init_engine_ok env self = true <-> init_engine_error env self = None.
Proof.
  unfold init_engine_ok, init_engine_error.
  destruct (platform_supported env); simpl; [|done].
  destruct (maya_supported env); simpl; [|done].
  destruct (engine_locations env self) as [[|loc1 locs]|]; simpl; [done| |done].
  by destruct (project_setup env self).
Qed.

Lemma init_engine_error_class env self e :
  init_engine_error env self = Some e ->
  is_TankError e = true \/ project_setup env self = inl e.
Proof.
  unfold init_engine_error.
  destruct (platform_supported env); simpl; [|intros [= <-]; by left].
  destruct (maya_supported env); simpl; [|intros [= <-]; by left].
  destruct (engine_locations env self) as [[|loc1 locs]|];
    [intros [= <-]; by left| |intros [= <-]; by left].
  destruct (project_setup env self) as [e'|]; [|done]. intros [= <-]. by right.
Qed.

Lemma pyside_escape_spec env e :
  pyside_escape env = Some e
  <-> pyside_present env = false
      /\ pyside_importable env = Some e
      /\ is_Exception e = false.
Proof.
  unfold pyside_escape. destruct (pyside_present env).
  { split; [done | by intros [[=] _]]. }
  destruct (pyside_importable env) as [e'|].
  - destruct (is_Exception e') eqn:He'.
    + split; [done | intros (_ & [= ->] & ?); congruence].
    + split; [by intros [= ->] | by intros (_ & [= ->] & _)].
  - split; [done | by intros (_ & [=] & _)].
Qed.

(** X1.  When the platform and the Maya version are supported, the context
    has folders on disk and the project template, if one is set, can be
    applied, [init_engine] gets as far as the import of PySide.  Unless that
    import raises outside [Exception], [init_engine] goes through: the
    queue is empty afterwards, exactly one SceneOpened and one SceneSaved
    job are added, both for the engine's own name and context, and menus,
    the engine slot and the API calls are untouched.  If the import does
    raise outside [Exception], [init_engine] raises the same with the
    project set and no script job added. *)
Theorem init_engine_registers_both env self w :
  init_engine_ok env self = true ->
  match pyside_escape env with
  | None =>
      exists w',
        init_engine env self w = (w', inr (set_queue [] self))
        /\ script_jobs w'
           = script_jobs w ++ [ScriptJob SceneOpened (instance_name self) (context self);
                               ScriptJob SceneSaved (instance_name self) (context self)]
        /\ maya_project w' = project_after env self w
        /\ same_session w w'
  | Some e =>
      exists w',
        init_engine env self w = (w', inl e)
        /\ script_jobs w' = script_jobs w
        /\ maya_project w' = project_after env self w
        /\ same_session w w'
  end.
Proof.
  intros Hok. apply init_engine_ok_error in Hok.
  pose proof (init_engine_run env self w) as Hrun. rewrite Hok in Hrun.
  destruct (pyside_escape env) as [e|].
  - exists (init_interrupted env self w). by rewrite Hrun.
  - exists (initialised env self w). by rewrite Hrun.
Qed.

Lemma init_engine_registers_both_witness :
  exists w',
    init_engine demo_env (fresh_engine demo_env "tk-maya" tk_demo ctx_shot20)
      (world_disabled "")
    = (w', inr (set_queue [] (fresh_engine demo_env "tk-maya" tk_demo ctx_shot20)))
    /\ script_jobs w'
       = jobs_shot10 ++ [ScriptJob SceneOpened "tk-maya" ctx_shot20;
                         ScriptJob SceneSaved "tk-maya" ctx_shot20].
Proof.
  pose proof (init_engine_registers_both demo_env
                (fresh_engine demo_env "tk-maya" tk_demo ctx_shot20) (world_disabled "")
                eq_refl) as H.
  change (pyside_escape demo_env) with (@None exn) in H.
  destruct H as (w' & Hrun & Hjobs & _).
  exists w'. split; [exact Hrun | exact Hjobs].
Defined.

(** X2.  When one of the checks of [init_engine] fails, or the project
    template cannot be applied, [init_engine] raises and has registered no
    script job, set no Maya project and touched no menu; the exception is a
    [TankError] unless it is the one the template code raised. *)
Theorem init_engine_refusal_registers_nothing env self w :
  init_engine_ok env self = false ->
  exists w' e,
    init_engine env self w = (w', inl e)
    /\ script_jobs w' = script_jobs w
    /\ maya_project w' = maya_project w
    /\ same_session w w'
    /\ (is_TankError e = true \/ project_setup env self = inl e).
Proof.
  intros Hok.
  destruct (init_engine_error env self) as [e|] eqn:Herr.
  - pose proof (init_engine_run env self w) as Hrun. rewrite Herr in Hrun.
    eexists _, e. split; [exact Hrun|].
    split; [by destruct w|]. split; [by destruct w|]. split; [by destruct w|].
    by apply init_engine_error_class.
  - apply init_engine_ok_error in Herr. congruence.
Qed.

Lemma init_engine_refusal_registers_nothing_witness :
  exists w' e,
    init_engine demo_env
      (fresh_engine demo_env "tk-maya" tk_demo (Ctx None None None)) (world_disabled "")
    = (w', inl e)
    /\ script_jobs w' = jobs_shot10
    /\ is_TankError e = true.
Proof.
  destruct (init_engine_refusal_registers_nothing demo_env
              (fresh_engine demo_env "tk-maya" tk_demo (Ctx None None None))
              (world_disabled ""))
    as (w' & e & Hrun & Hjobs & _ & _ & [He|He]); [reflexivity| |discriminate].
  exists w', e. split; [exact Hrun|]. split; [exact Hjobs | exact He].
Defined.

(** X3.  The entity of the context decides alone: when the context has an
    entity and no folder on disk belongs to it, [init_engine] raises the
    no-folders [TankError], even if the project of the context has folders. *)
Theorem init_engine_entity_before_project env self w ent :
  platform_supported env = true ->
  maya_supported env = true ->
  entity (context self) = Some ent ->
  paths_from_entity env (tank self) (link_type ent) (link_id ent) = [] ->
  exists w',
    init_engine env self w
    = (w',
       inl (tank_error
              ("No folders on disk are associated with the current context. The "
               +:+ "engine requires a context which exists on disk in order to run "
               +:+ "correctly.")))
    /\ script_jobs w' = script_jobs w.
Proof.
  intros Hos Hmaya Hent Hpaths.
  pose proof (init_engine_run env self w) as Hrun.
  unfold init_engine_error, engine_locations in Hrun.
  rewrite Hos, Hmaya, Hent, Hpaths in Hrun. simpl in Hrun.
  eexists. split; [exact Hrun|]. by destruct w.
Qed.

Lemma init_engine_entity_before_project_witness :
  paths_from_entity env_no_shot_folder tk_demo "Project" 1 = ["/projects/demo"]
  /\ exists w',
       init_engine env_no_shot_folder
         (fresh_engine env_no_shot_folder "tk-maya" tk_demo ctx_shot10)
         (world_disabled "")
       = (w',
          inl (tank_error
                 ("No folders on disk are associated with the current context. The "
                  +:+ "engine requires a context which exists on disk in order to run "
                  +:+ "correctly.")))
       /\ script_jobs w' = jobs_shot10.
Proof.
  split; [reflexivity|].
  apply (init_engine_entity_before_project env_no_shot_folder
           (fresh_engine env_no_shot_folder "tk-maya" tk_demo ctx_shot10)
           (world_disabled "") (EntityLink "Shot" 10));
    reflexivity.
Defined.

Lemma debug_lines_no_error env self msg s : DisplayError s ∉ debug_lines env self msg.
Proof.
  unfold debug_lines. destruct (debug_logging self); [|apply not_elem_of_nil].
  intros (l & [=] & _)%list_elem_of_fmap.
Qed.

Lemma pyside_lines_error env self :
  (exists s, DisplayError s ∈ pyside_lines env self)
  <-> pyside_present env = false
      /\ (sys_platform env ∉ ["darwin"; "win32"; "linux2"]
          \/ exists e, pyside_importable env = Some e /\ is_Exception e = true).
Proof.
  unfold pyside_lines.
  destruct (pyside_present env).
  { split; [intros [s Hs]; by apply debug_lines_no_error in Hs | by intros [[=] _]]. }
  split.
  - intros [s Hs]. split; [done|].
    apply elem_of_app in Hs as [Hs|Hs]; [by apply debug_lines_no_error in Hs|].
    apply elem_of_app in Hs as [Hs|Hs].
    + left. destruct (bool_decide _) eqn:Hb; [by apply elem_of_nil in Hs|].
      by apply bool_decide_eq_false in Hb.
    + right. destruct (pyside_importable env) as [e|]; [|by apply elem_of_nil in Hs].
      destruct (is_Exception e) eqn:He; [eauto | by apply elem_of_nil in Hs].
  - intros [_ [Hplat|(e & He & Hexc)]].
    + rewrite bool_decide_false by done. eexists.
      apply elem_of_app; right. apply elem_of_app; left. by left.
    + rewrite He, Hexc. eexists.
      apply elem_of_app; right. apply elem_of_app; right. by left.
Qed.

Lemma pyside_paths_none env self :
  pyside_paths env self = []
  <-> pyside_present env = true \/ sys_platform env ∉ ["darwin"; "win32"; "linux2"].
Proof.
  unfold pyside_paths.
  destruct (pyside_present env); [split; [by left | done]|].
  pose proof (pyside_folder_known env) as Hknown.
  destruct (pyside_folder env) as [folder|].
  - rewrite (bool_decide_true (is_Some (Some folder))) in Hknown by eauto.
    apply bool_decide_eq_true in Hknown.
    split; [done | by intros [[=]|?]].
  - rewrite (bool_decide_false (is_Some None)) in Hknown by (by intros [? ?]).
    apply bool_decide_eq_false in Hknown. split; [by right | done].
Qed.

(** X4.  [_init_pyside] changes the console, [sys.path] and [os.environ] and
    nothing else.  It raises only what the second import raised outside
    [Exception].  It appends at most one folder to [sys.path], and none
    exactly when PySide is there already or the platform is not one it
    knows.  Only on win32, and only when PySide is not there yet, it
    rewrites [PATH]: the folder of the DLLs is put behind what [PATH] held,
    behind the empty string when it was not set; no other variable changes.
    It writes to the error channel exactly when PySide is not there yet and
    either the platform is not one it knows or the second import raises
    within [Exception]. *)
Theorem init_pyside_extends_search_path env self w :
  exists w' lines added,
    _init_pyside env self w
    = (w', match pyside_escape env with
           | Some e => inl e
           | None => inr tt
           end)
    /\ (forall e, pyside_escape env = Some e
                  <-> pyside_present env = false
                      /\ pyside_importable env = Some e
                      /\ is_Exception e = false)
    /\ with_os_environ (fun _ => os_environ w)
         (with_sys_path (fun _ => sys_path w) (with_console (fun _ => console w) w'))
       = w
    /\ console w' = console w ++ lines
    /\ ((exists s, DisplayError s ∈ lines)
        <-> pyside_present env = false
            /\ (sys_platform env ∉ ["darwin"; "win32"; "linux2"]
                \/ exists e, pyside_importable env = Some e /\ is_Exception e = true))
    /\ sys_path w' = sys_path w ++ added
    /\ (length added <= 1)%nat
    /\ (added = []
        <-> pyside_present env = true
            \/ sys_platform env ∉ ["darwin"; "win32"; "linux2"])
    /\ (forall key, key <> "PATH" -> os_environ w' !! key = os_environ w !! key)
    /\ os_environ w' !! "PATH"
       = (if negb (pyside_present env) && String.eqb (sys_platform env) "win32"
          then Some (default "" (os_environ w !! "PATH") +:+ ";"
                     +:+ os_path_join env (disk_location env (instance_name self))
                           ["resources"; "pyside111_py26_qt471_win64"; "lib"])
          else os_environ w !! "PATH").
Proof.
  exists (pyside_world env self w), (pyside_lines env self), (pyside_paths env self).
  split; [apply init_pyside_run|].
  split; [intros e; apply pyside_escape_spec|].
  split; [unfold pyside_world; world_eq|].
  split; [done|].
  split; [apply pyside_lines_error|].
  split; [done|].
  split.
  { unfold pyside_paths. destruct (pyside_present env); [simpl; lia|].
    destruct (pyside_folder env); simpl; lia. }
  split; [apply pyside_paths_none|].
  unfold pyside_world, pyside_environ, pyside_dll_path; simpl.
  destruct (negb (pyside_present env) && String.eqb (sys_platform env) "win32").
  - split; [|apply lookup_insert_eq].
    intros key Hkey. by rewrite lookup_insert_ne.
  - done.
Qed.

Lemma init_pyside_extends_search_path_witness :
  exists w',
    _init_pyside env_win32 engine_shot10 (world_active "") = (w', inr tt)
    /\ sys_path w'
       = ["/usr/lib/python2.6";
          "C:\tank\engines\tk-maya\resources\pyside111_py26_qt471_win64\python"]
    /\ os_environ w' !! "PATH"
       = Some ";C:\tank\engines\tk-maya\resources\pyside111_py26_qt471_win64\lib"
    /\ console w' = [].
Proof.
  destruct (init_pyside_extends_search_path env_win32 engine_shot10 (world_active ""))
    as (w' & lines & added & Hrun & _).
  exists w'. split; [exact Hrun|].
  assert (Hw' : w' = fst (_init_pyside env_win32 engine_shot10 (world_active "")))
    by (by rewrite Hrun).
  rewrite Hw'. split; [reflexivity|]. split; reflexivity.
Defined.

(** ** Switching engines: [on_scene_event_cb] with the hooks *)

Lemma start_engine_full env en tk ctx w :
  start_engine env en tk ctx w
  = match start_error env en tk ctx with
    | Some e => (start_failed env en tk ctx w, inl e)
    | None =>
        if has_ui env && bool_decide (is_Some (ui_menus w !! "TankMenu"))
        then (menu_refused env en tk ctx w, inl menu_taken)
        else (started env en tk ctx w, inr (started_engine env en tk ctx))
    end.
Proof.
  unfold start_engine, start_error, start_failed, start_failure_lines, import_reached,
    init_engine_raises.
  unfold bind at 1. unfold get_current_engine, gets.
  unfold bind at 1. unfold record_call, modify.
  destruct (start_engine_fails env en tk ctx) as [e|].
  { unfold raise. f_equal; try world_eq. }
  fold (fresh_engine env en tk ctx).
  unfold bind at 1. rewrite init_engine_run.
  destruct (init_engine_error env (fresh_engine env en tk ctx)) as [e|].
  { f_equal; try world_eq. }
  destruct (pyside_escape env) as [e|].
  { f_equal; unfold init_interrupted; try world_eq. }
  unfold post_app_init, started, started_engine, menu_refused, menu_taken, initialised.
  destruct (has_ui env); simpl.
  - unfold bind, menu. simpl.
    destruct (ui_menus w !! "TankMenu") as [items|] eqn:Ht.
    + rewrite bool_decide_true by eauto. f_equal; try world_eq.
    + rewrite bool_decide_false by (by intros [? ?]).
      unfold modify, ret. f_equal; try world_eq.
  - unfold ret. f_equal; try world_eq.
Qed.

Lemma teardown_clean_run env pc ctx w :
  teardown_clean env w ->
  teardown env (current_engine w) pc ctx w = (torn_down env pc ctx w, inr tt).
Proof.
  unfold teardown_clean, teardown, torn_down.
  destruct (current_engine w) as [ce|] eqn:Hce; [|done].
  intros (Hfail & Hhandle & Hmenu).
  unfold bind. rewrite !log_debug_run.
  erewrite destroy_ok; [|done..].
  f_equal. unfold destroyed, teardown_lines.
  world_eq.
Qed.

Lemma teardown_clean_resolved env pc tk w :
  teardown_clean env w -> teardown_clean env (resolved_world env pc tk w).
Proof.
  unfold teardown_clean. destruct w as [menus ? ? ? [ce|] ? ? ? ? ? ? ?]; simpl; [|done].
  intros (? & ? & ?). by rewrite lookup_delete_ne.
Qed.

Lemma rebuild_decided (current : option Engine) (ctx pc : Context) :
  current = None \/ ctx <> pc ->
  bool_decide (is_Some current) && bool_decide (ctx = pc) = false.
Proof.
  intros [->|Hne].
  - rewrite bool_decide_false; [done|]. by intros [? ?].
  - rewrite (bool_decide_false (ctx = pc)) by done. apply andb_false_r.
Qed.

(** After the teardown the name [TankMenu] is taken only if it was taken
    while no engine was running. *)
Lemma torn_down_tank_menu env pc ctx tk w :
  teardown_clean env w ->
  has_ui env
  && bool_decide
       (is_Some (ui_menus (torn_down env pc ctx (resolved_world env pc tk w))
                 !! "TankMenu"))
  = stale_tank_menu env w.
Proof.
  unfold stale_tank_menu, torn_down, resolved_world, reset_world, teardown_clean.
  destruct w as [menus ? ? ? [ce|] ? ? ? ? ? ? ?]; simpl; intros _.
  - rewrite lookup_delete_eq, (bool_decide_false (is_Some None)) by (by intros [? ?]).
    by destruct (has_ui env).
  - rewrite lookup_delete_ne by done. by rewrite andb_true_r.
Qed.

Lemma torn_down_no_disabled env pc ctx tk w :
  ui_menus (torn_down env pc ctx (resolved_world env pc tk w)) !! "TankMenuDisabled"
  = None.
Proof.
  unfold torn_down, resolved_world, reset_world.
  destruct w as [menus ? ? ? [ce|] ? ? ? ? ? ? ?]; simpl.
  - by rewrite lookup_delete_ne, lookup_delete_eq.
  - apply lookup_delete_eq.
Qed.

(** The callback when a rebuild is decided and the teardown goes through. *)
Lemma switch_run env en pc w tk ctx :
  scene_name w <> "" ->
  tank_from_path env (scene_path env w) = inr tk ->
  context_from_path env tk (scene_path env w) pc = inr ctx ->
  current_engine w = None \/ ctx <> pc ->
  teardown_clean env w ->
  on_scene_event_try env en pc w
  = let w1 := torn_down env pc ctx (resolved_world env pc tk w) in
    match start_error env en tk ctx with
    | None =>
        if stale_tank_menu env w then (menu_refused env en tk ctx w1, inl menu_taken)
        else
          (with_console
             (fun c => c ++ debug_lines env (started_engine env en tk ctx)
                              "Launched new engine for context!")
             (started env en tk ctx w1),
           inr tt)
    | Some e =>
        if is_TankEngineInitError e then
          (with_script_jobs
             (fun js => js ++ [ScriptJob SceneOpened en pc; ScriptJob SceneSaved en pc])
             (with_ui_menus
                (fun m => <["TankMenuDisabled" := disabled_menu_items]>
                            (delete "TankMenu" m))
                (with_console (fun c => c ++ [cannot_start e])
                   (start_failed env en tk ctx w1))),
           inr tt)
        else (start_failed env en tk ctx w1, inl e)
    end.
Proof.
  intros Hname Htank Hctx Hrebuild Hclean.
  rewrite (try_resolved env en pc w tk), Hctx, rebuild_decided by done.
  assert (Hce : current_engine w = current_engine (resolved_world env pc tk w))
    by (by destruct w).
  rewrite Hce. unfold switch_engine. unfold bind at 1.
  rewrite teardown_clean_run by (by apply teardown_clean_resolved).
  unfold try_except_else. rewrite start_engine_full. cbv zeta.
  rewrite torn_down_tank_menu by done.
  pose proof (torn_down_no_disabled env pc ctx tk w) as Hnone.
  destruct (start_error env en tk ctx) as [e|].
  - destruct (is_TankEngineInitError e); [|done].
    unfold bind, displayInfo, scriptJob, modify.
    rewrite create_tank_disabled_menu_run by exact Hnone.
    f_equal; try world_eq.
  - destruct (stale_tank_menu env w); [done|]. by rewrite log_debug_run.
Qed.

Lemma started_engine_attributes env en tk ctx :
  instance_name (started_engine env en tk ctx) = en
  /\ tank (started_engine env en tk ctx) = tk
  /\ context (started_engine env en tk ctx) = ctx
  /\ _queue (started_engine env en tk ctx) = Some []
  /\ _menu_handle (started_engine env en tk ctx)
     = (if has_ui env then Some "TankMenu" else None).
Proof. unfold started_engine. by destruct (has_ui env). Qed.

(** X5.  The scene now belongs to another context (or no engine is running),
    the old engine can be torn down and nothing stops the new one.  Unless
    a [Tank] menu is left over while no engine runs, the callback returns
    normally, the engine that is current afterwards was started under the
    same name for the resolved pipeline and context with an empty queue, no
    disabled menu is shown, the [Tank] menu is there if Maya has a UI, one
    SceneOpened and one SceneSaved job for the new context are added, and
    the API calls are: resolve, resolve, destroy of the old engine if there
    was one, start.  With such a left-over menu, [post_app_init] cannot
    make its menu: the callback still returns normally and the two jobs
    for the new context are registered, but no engine is current and the
    refusal is shown on the error channel. *)
Theorem switch_starts_engine_for_new_context env en pc w tk ctx :
  scene_name w <> "" ->
  tank_from_path env (scene_path env w) = inr tk ->
  context_from_path env tk (scene_path env w) pc = inr ctx ->
  current_engine w = None \/ ctx <> pc ->
  teardown_clean env w ->
  start_error env en tk ctx = None ->
  let r := on_scene_event_cb env en pc w in
  (stale_tank_menu env w = false ->
   snd r = inr tt
   /\ (exists new,
         current_engine (fst r) = Some new
         /\ instance_name new = en /\ tank new = tk /\ context new = ctx
         /\ _queue new = Some [])
   /\ ui_menus (fst r) !! "TankMenuDisabled" = None
   /\ (has_ui env = true -> ui_menus (fst r) !! "TankMenu" = Some [])
   /\ script_jobs (fst r)
      = script_jobs w ++ [ScriptJob SceneOpened en ctx; ScriptJob SceneSaved en ctx]
   /\ api_calls (fst r)
      = api_calls w
        ++ [CallTankFromPath (scene_path env w);
            CallContextFromPath tk (scene_path env w) pc]
        ++ teardown_calls (current_engine w)
        ++ [CallStartEngine en tk ctx None])
  /\ (stale_tank_menu env w = true ->
      snd r = inr tt
      /\ current_engine (fst r) = None
      /\ ui_menus (fst r) !! "TankMenuDisabled" = None
      /\ script_jobs (fst r)
         = script_jobs w ++ [ScriptJob SceneOpened en ctx; ScriptJob SceneSaved en ctx]
      /\ DisplayError (problem_message menu_taken) ∈ console (fst r)).
Proof.
  intros Hname Htank Hctx Hrebuild Hclean Hstart r. subst r.
  rewrite on_scene_event_cb_run, (switch_run env en pc w tk ctx), Hstart by done.
  cbv zeta. split; intros Hstale; rewrite Hstale.
  - split; [done|].
    destruct (started_engine_attributes env en tk ctx) as (Hn & Ht & Hc & Hq & _).
    split; [exists (started_engine env en tk ctx); by destruct w|].
    unfold started, torn_down, resolved_world, reset_world.
    destruct w as [menus scene jobs cons [ce|] proj bar hp calls inv path vars];
      world_simpl; simpl.
    + split; [|split; [|split]].
      * destruct (has_ui env);
          by rewrite ?lookup_insert_ne, lookup_delete_ne, lookup_delete_eq.
      * intros ->. apply lookup_insert_eq.
      * done.
      * by rewrite <- !app_assoc.
    + split; [|split; [|split]].
      * destruct (has_ui env); by rewrite ?lookup_insert_ne, lookup_delete_eq.
      * intros ->. apply lookup_insert_eq.
      * done.
      * by rewrite <- !app_assoc.
  - cbv beta iota.
    assert (Hexc : is_Exception menu_taken = true) by reflexivity. rewrite Hexc.
    unfold stale_tank_menu in Hstale.
    destruct w as [menus scene jobs cons [ce|] proj bar hp calls inv path vars].
    { simpl in Hstale. by destruct (has_ui env). }
    unfold menu_refused, torn_down, resolved_world, reset_world.
    world_simpl; simpl.
    split; [done|]. split; [done|]. split; [apply lookup_delete_eq|].
    split; [done|]. apply elem_of_app; right. by left.
Qed.

Lemma switch_starts_engine_for_new_context_witness :
  let r := on_scene_event_cb demo_env "tk-maya" ctx_shot10
             (world_active "/projects/demo/shot20/scene.ma") in
  snd r = inr tt
  /\ (context <$> current_engine (fst r)) = Some ctx_shot20
  /\ script_jobs (fst r)
     = jobs_shot10 ++ [ScriptJob SceneOpened "tk-maya" ctx_shot20;
                       ScriptJob SceneSaved "tk-maya" ctx_shot20].
Proof.
  destruct (switch_starts_engine_for_new_context demo_env "tk-maya" ctx_shot10
              (world_active "/projects/demo/shot20/scene.ma") tk_demo ctx_shot20)
    as [Hfresh _];
    [discriminate | reflexivity | reflexivity | right; discriminate
    | vm_compute; eauto | reflexivity |].
  destruct (Hfresh eq_refl) as (Hret & (new & Hnew & _ & _ & Hc & _) & _ & _ & Hjobs & _).
  split; [exact Hret|]. split; [|exact Hjobs].
  rewrite Hnew. simpl. by rewrite Hc.
Defined.

(** X6.  A rebuild is decided, the teardown goes through, and [start_engine]
    raises an engine-initialization error: the callback returns normally
    with no engine current, the disabled menu shown in place of the [Tank]
    menu, the user told why, and one SceneOpened and one SceneSaved job
    added that still carry the previous context, not the resolved one. *)
Theorem failed_start_rearms_with_previous_context env en pc w tk ctx e :
  scene_name w <> "" ->
  tank_from_path env (scene_path env w) = inr tk ->
  context_from_path env tk (scene_path env w) pc = inr ctx ->
  current_engine w = None \/ ctx <> pc ->
  teardown_clean env w ->
  start_error env en tk ctx = Some e ->
  is_TankEngineInitError e = true ->
  let r := on_scene_event_cb env en pc w in
  snd r = inr tt
  /\ current_engine (fst r) = None
  /\ ui_menus (fst r) !! "TankMenuDisabled" = Some disabled_menu_items
  /\ ui_menus (fst r) !! "TankMenu" = None
  /\ script_jobs (fst r)
     = script_jobs w ++ [ScriptJob SceneOpened en pc; ScriptJob SceneSaved en pc]
  /\ (exists lines, console (fst r) = console w ++ lines ++ [cannot_start e]).
Proof.
  intros Hname Htank Hctx Hrebuild Hclean Hstart He r. subst r.
  rewrite on_scene_event_cb_run, (switch_run env en pc w tk ctx), Hstart, He by done.
  cbv zeta. split; [done|].
  unfold start_failed, torn_down, resolved_world, reset_world.
  destruct w as [menus scene jobs cons [ce|] proj bar hp calls inv path vars];
    world_simpl; simpl.
  - split; [done|]. split; [apply lookup_insert_eq|].
    split; [by rewrite lookup_insert_ne, lookup_delete_eq|]. split; [done|].
    exists (teardown_lines env ce pc ctx ++ start_failure_lines env en tk ctx).
    by rewrite <- !app_assoc.
  - split; [done|]. split; [apply lookup_insert_eq|].
    split; [by rewrite lookup_insert_ne, lookup_delete_eq|]. split; [done|].
    exists (start_failure_lines env en tk ctx). by rewrite <- !app_assoc.
Qed.

Lemma failed_start_rearms_with_previous_context_witness :
  let r := on_scene_event_cb demo_env "tk-maya" ctx_shot10
             (world_active "/projects/demo/shot30/scene.ma") in
  current_engine (fst r) = None
  /\ ui_menus (fst r) !! "TankMenuDisabled" = Some disabled_menu_items
  /\ script_jobs (fst r)
     = jobs_shot10 ++ [ScriptJob SceneOpened "tk-maya" ctx_shot10;
                       ScriptJob SceneSaved "tk-maya" ctx_shot10].
Proof.
  destruct (failed_start_rearms_with_previous_context demo_env "tk-maya" ctx_shot10
              (world_active "/projects/demo/shot30/scene.ma") tk_demo ctx_shot30
              init_error)
    as (_ & Hengine & Hmenu & _ & Hjobs & _);
    [discriminate | reflexivity | reflexivity | right; discriminate
    | vm_compute; eauto | reflexivity | reflexivity |].
  split; [exact Hengine|]. split; [exact Hmenu | exact Hjobs].
Defined.

(** X7.  The short cut for an unchanged context needs a running engine.
    With no engine current, a scene whose context equals [prev_context]
    still leads to a start: [start_engine] is called for that context,
    right after the two resolution calls. *)
Theorem unchanged_context_without_engine_restarts env en pc w tk :
  current_engine w = None ->
  scene_name w <> "" ->
  tank_from_path env (scene_path env w) = inr tk ->
  context_from_path env tk (scene_path env w) pc = inr pc ->
  api_calls (fst (on_scene_event_cb env en pc w))
  = api_calls w ++ [CallTankFromPath (scene_path env w);
                    CallContextFromPath tk (scene_path env w) pc;
                    CallStartEngine en tk pc None].
Proof.
  intros Hnone Hname Htank Hctx.
  assert (Hclean : teardown_clean env w) by (unfold teardown_clean; by rewrite Hnone).
  rewrite (on_scene_event_cb_fst api_calls) by (intros l w0; by destruct w0).
  rewrite (switch_run env en pc w tk pc) by auto.
  cbv zeta.
  unfold start_failed, started, menu_refused, torn_down, resolved_world, reset_world.
  destruct w as [menus scene jobs cons ce proj bar hp calls inv path vars];
    world_simpl_all; simpl in *; subst ce.
  destruct (start_error env en tk pc) as [e|];
    [destruct (is_TankEngineInitError e)|destruct (stale_tank_menu env _)];
    simpl; by rewrite <- !app_assoc.
Qed.

Lemma unchanged_context_without_engine_restarts_witness :
  let w := world_disabled "/projects/demo/shot10/scene.ma" in
  api_calls (fst (on_scene_event_cb demo_env "tk-maya" ctx_shot10 w))
  = [CallTankFromPath "/projects/demo/shot10/scene.ma";
     CallContextFromPath tk_demo "/projects/demo/shot10/scene.ma" ctx_shot10;
     CallStartEngine "tk-maya" tk_demo ctx_shot10 None].
Proof.
  apply (unchanged_context_without_engine_restarts demo_env "tk-maya" ctx_shot10
           (world_disabled "/projects/demo/shot10/scene.ma") tk_demo);
    [reflexivity | discriminate | reflexivity | reflexivity].
Defined.

(** X8.  When [tank_from_path] raises a [TankError] while an engine is
    running, the callback shows the disabled menu but does not destroy the
    engine: it is still the current one, its menu is gone, session and
    disabled marker are both there, and no script job was added. *)
Theorem unrecognized_path_keeps_engine env en pc w ce e :
  current_engine w = Some ce ->
  scene_name w <> "" ->
  tank_from_path env (scene_path env w) = inl e ->
  is_TankError e = true ->
  let w' := fst (on_scene_event_cb env en pc w) in
  current_engine w' = Some ce
  /\ api_calls w' = api_calls w ++ [CallTankFromPath (scene_path env w)]
  /\ ui_menus w' !! "TankMenu" = None
  /\ (live_sessions w' + disabled_markers w' = 2)%nat
  /\ script_jobs w' = script_jobs w.
Proof.
  intros Hce Hname Htank He w'. subst w'.
  rewrite on_scene_event_cb_run, (try_tank_error env en pc w e), He by done.
  unfold live_sessions, disabled_markers.
  destruct w; world_simpl_all; simpl in *. rewrite Hce.
  by rewrite lookup_insert_eq, lookup_insert_ne, lookup_delete_eq.
Qed.

Lemma unrecognized_path_keeps_engine_witness :
  let w' := fst (on_scene_event_cb demo_env "tk-maya" ctx_shot10
                   (world_active "/home/artist/scratch.ma")) in
  current_engine w' = Some engine_shot10
  /\ (live_sessions w' + disabled_markers w' = 2)%nat.
Proof.
  destruct (unrecognized_path_keeps_engine demo_env "tk-maya" ctx_shot10
              (world_active "/home/artist/scratch.ma") engine_shot10
              (unknown_path_error "/home/artist/scratch.ma"))
    as (Hengine & _ & _ & Hcount & _);
    [reflexivity | discriminate | reflexivity | reflexivity |].
  split; [exact Hengine | exact Hcount].
Defined.

(** X9.  When the platform's [destroy] raises during a rebuild, no engine
    is started: [CallDestroy] is the last API call, the old engine is still
    current with its menus as they were, and no script job is added.  An
    exception that derives from [Exception] is shown on the error channel
    and the callback returns normally; any other is raised to the caller
    and nothing is shown. *)
Theorem failed_destroy_starts_nothing env en pc w ce tk ctx e :
  current_engine w = Some ce ->
  scene_name w <> "" ->
  tank_from_path env (scene_path env w) = inr tk ->
  context_from_path env tk (scene_path env w) pc = inr ctx ->
  ctx <> pc ->
  destroy_fails env (instance_name ce) = Some e ->
  let r := on_scene_event_cb env en pc w in
  snd r = (if is_Exception e then inr tt else inl e)
  /\ api_calls (fst r)
     = api_calls w ++ [CallTankFromPath (scene_path env w);
                       CallContextFromPath tk (scene_path env w) pc;
                       CallDestroy (instance_name ce)]
  /\ current_engine (fst r) = Some ce
  /\ ui_menus (fst r) !! "TankMenu" = ui_menus w !! "TankMenu"
  /\ script_jobs (fst r) = script_jobs w
  /\ (is_Exception e = true -> DisplayError (problem_message e) ∈ console (fst r)).
Proof.
  intros Hce Hname Htank Hctx Hne Hfail r. subst r.
  rewrite on_scene_event_cb_run, (try_resolved env en pc w tk), Hctx by done.
  rewrite rebuild_decided by (by right).
  rewrite Hce. unfold switch_engine, teardown, bind. rewrite !log_debug_run.
  unfold destroy, bind, record_call, modify. simpl. rewrite Hfail. simpl.
  destruct (is_Exception e) eqn:Hexc; (split; [done|]);
    destruct w; world_simpl_all; simpl in *;
    rewrite <- app_assoc, lookup_delete_ne by done;
    (split; [done|]); (split; [done|]); (split; [done|]); (split; [done|]);
    [|done].
  intros _. apply elem_of_app; right. by left.
Qed.

Lemma failed_destroy_starts_nothing_witness :
  let r := on_scene_event_cb env_destroy_refused "tk-maya" ctx_shot10
             (world_active "/projects/demo/shot20/scene.ma") in
  snd r = inr tt
  /\ api_calls (fst r)
     = [CallTankFromPath "/projects/demo/shot20/scene.ma";
        CallContextFromPath tk_demo "/projects/demo/shot20/scene.ma" ctx_shot10;
        CallDestroy "tk-maya"]
  /\ current_engine (fst r) = Some engine_shot10.
Proof.
  destruct (failed_destroy_starts_nothing env_destroy_refused "tk-maya" ctx_shot10
              (world_active "/projects/demo/shot20/scene.ma") engine_shot10 tk_demo
              ctx_shot20 key_error)
    as (Hret & Hcalls & Hengine & _);
    [reflexivity | discriminate | reflexivity | reflexivity | discriminate
    | reflexivity |].
  split; [exact Hret|]. split; [exact Hcalls | exact Hengine].
Defined.

(** X10.  A rebuild is decided, the teardown goes through, and
    [start_engine] raises something that is no engine-initialization error,
    such as the plain [TankError] of [init_engine]'s own checks: afterwards
    no engine is current, neither menu is shown and no script job was
    added.  An exception that derives from [Exception] is shown on the
    error channel, which is then the only trace, and the callback returns
    normally; any other is raised to the caller. *)
Theorem failed_start_of_other_kind_leaves_nothing env en pc w tk ctx e :
  scene_name w <> "" ->
  tank_from_path env (scene_path env w) = inr tk ->
  context_from_path env tk (scene_path env w) pc = inr ctx ->
  is_Some (current_engine w) ->
  ctx <> pc ->
  teardown_clean env w ->
  start_error env en tk ctx = Some e ->
  is_TankEngineInitError e = false ->
  let r := on_scene_event_cb env en pc w in
  snd r = (if is_Exception e then inr tt else inl e)
  /\ current_engine (fst r) = None
  /\ ui_menus (fst r) !! "TankMenu" = None
  /\ ui_menus (fst r) !! "TankMenuDisabled" = None
  /\ script_jobs (fst r) = script_jobs w
  /\ (is_Exception e = true -> DisplayError (problem_message e) ∈ console (fst r)).
Proof.
  intros Hname Htank Hctx [ce Hce] Hne Hclean Hstart He r. subst r.
  rewrite on_scene_event_cb_run, (switch_run env en pc w tk ctx), Hstart, He
    by auto.
  cbv beta iota zeta.
  unfold start_failed, torn_down, resolved_world, reset_world.
  destruct (is_Exception e) eqn:Hexc; (split; [done|]);
    destruct w as [menus scene jobs cons cur proj bar hp calls inv path vars];
    world_simpl_all; simpl in *; subst cur; simpl;
    (split; [done|]); (split; [apply lookup_delete_eq|]);
    (split; [by rewrite lookup_delete_ne, lookup_delete_eq|]); (split; [done|]);
    [|done].
  intros _. apply elem_of_app; right. by left.
Qed.

Lemma failed_start_of_other_kind_leaves_nothing_witness :
  let r := on_scene_event_cb env_no_shot_folder "tk-maya" ctx_shot10
             (world_active "/projects/demo/shot20/scene.ma") in
  snd r = inr tt
  /\ current_engine (fst r) = None
  /\ ui_menus (fst r) = ∅
  /\ script_jobs (fst r) = jobs_shot10.
Proof.
  destruct (failed_start_of_other_kind_leaves_nothing env_no_shot_folder "tk-maya"
              ctx_shot10 (world_active "/projects/demo/shot20/scene.ma") tk_demo
              ctx_shot20
              (tank_error
                 ("No folders on disk are associated with the current context. The "
                  +:+ "engine requires a context which exists on disk in order to run "
                  +:+ "correctly.")))
    as (Hret & Hengine & _ & _ & Hjobs & _);
    [discriminate | reflexivity | reflexivity | vm_compute; eauto | discriminate
    | vm_compute; eauto | reflexivity | reflexivity |].
  split; [exact Hret|]. split; [exact Hengine|]. split; [reflexivity | exact Hjobs].
Defined.

(** ** The menus: [create_tank_disabled_menu], [post_app_init],
    [destroy_engine] *)

(** X11.  [create_tank_disabled_menu] goes through exactly when no disabled
    menu is there yet: then the disabled menu holds its one item, the
    [Tank] menu is gone and every other menu is as it was.  When the
    disabled menu is there already, Maya refuses the name and the function
    raises, having removed the [Tank] menu and left the disabled menu as it
    was.  So the function is not to be called twice in a row, and behind
    the reset the scene callback starts with it always goes through. *)
Theorem create_tank_disabled_menu_needs_reset w :
  let r := create_tank_disabled_menu w in
  (snd r = inr tt <-> ui_menus w !! "TankMenuDisabled" = None)
  /\ (snd r = inr tt -> ui_menus (fst r) !! "TankMenuDisabled" = Some ["Tank is disabled."])
  /\ (snd r <> inr tt ->
      snd r = inl (RuntimeError "Object's name 'TankMenuDisabled' is not unique.")
      /\ ui_menus (fst r) !! "TankMenuDisabled" = ui_menus w !! "TankMenuDisabled")
  /\ ui_menus (fst r) !! "TankMenu" = None
  /\ (forall name, name <> "TankMenu" -> name <> "TankMenuDisabled" ->
        ui_menus (fst r) !! name = ui_menus w !! name)
  /\ (snd r = inr tt -> snd (create_tank_disabled_menu (fst r)) <> inr tt)
  /\ snd ((reset_disabled_menu ;; create_tank_disabled_menu) w) = inr tt.
Proof.
  cbv zeta. unfold bind. rewrite reset_disabled_menu_run.
  rewrite (create_tank_disabled_menu_run (with_ui_menus _ w))
    by (simpl; apply lookup_delete_eq).
  rewrite (create_tank_disabled_menu_cases w).
  destruct (ui_menus w !! "TankMenuDisabled") as [items|] eqn:Hd; simpl.
  - split; [split; [done | done]|]. split; [done|].
    split; [intros _; split; [done | by rewrite lookup_delete_ne]|].
    split; [apply lookup_delete_eq|].
    split; [intros name Ht _; by rewrite lookup_delete_ne|]. done.
  - split; [done|]. split; [intros _; apply lookup_insert_eq|]. split; [done|].
    split; [by rewrite lookup_insert_ne, lookup_delete_eq|].
    split; [intros name Ht Hn; by rewrite lookup_insert_ne, lookup_delete_ne|].
    split; [|done]. intros _.
    rewrite create_tank_disabled_menu_cases. simpl. by rewrite lookup_insert_eq.
Qed.

(** X12.  With a UI, [post_app_init] followed by [destroy_engine] is a round
    trip on the menus: the [Tank] menu exists in between, the engine holds
    its handle, and after [destroy_engine] the menus are what they were
    before, provided no [Tank] menu was there to begin with. *)
Theorem post_app_init_destroy_engine_round_trip env self w :
  has_ui env = true ->
  ui_menus w !! "TankMenu" = None ->
  exists self' w1 w2,
    post_app_init env self w = (w1, inr self')
    /\ _menu_handle self' = Some "TankMenu"
    /\ ui_menus w1 !! "TankMenu" = Some []
    /\ destroy_engine env self' w1 = (w2, inr tt)
    /\ ui_menus w2 = ui_menus w.
Proof.
  intros Hui Hnone. unfold post_app_init, destroy_engine. rewrite Hui.
  unfold bind, menu, modify, ret. rewrite Hnone. simpl.
  eexists _, _, _. split; [reflexivity|]. split; [done|].
  split; [apply lookup_insert_eq|].
  rewrite log_debug_run. unfold deleteUI. simpl. rewrite lookup_insert_eq.
  split; [reflexivity|]. simpl. by apply delete_insert_id.
Qed.

Lemma post_app_init_destroy_engine_round_trip_witness :
  exists self' w1 w2,
    post_app_init demo_env (fresh_engine demo_env "tk-maya" tk_demo ctx_shot10)
      (world_disabled "")
    = (w1, inr self')
    /\ destroy_engine demo_env self' w1 = (w2, inr tt)
    /\ ui_menus w2 = ui_menus (world_disabled "").
Proof.
  destruct (post_app_init_destroy_engine_round_trip demo_env
              (fresh_engine demo_env "tk-maya" tk_demo ctx_shot10) (world_disabled ""))
    as (self' & w1 & w2 & Hinit & _ & _ & Hdestroy & Hmenus);
    [reflexivity | reflexivity |].
  exists self', w1, w2. split; [exact Hinit|]. split; [exact Hdestroy | exact Hmenus].
Defined.

(** X13.  In batch mode [post_app_init] creates no menu and assigns no
    handle, so [destroy_engine] of that engine raises an [AttributeError]
    for [_menu_handle] and deletes nothing. *)
Theorem batch_mode_destroy_engine_raises env self w :
  about_batch env = true ->
  _menu_handle self = None ->
  post_app_init env self w = (w, inr self)
  /\ exists w',
       destroy_engine env self w = (w', inl (AttributeError "_menu_handle"))
       /\ ui_menus w' = ui_menus w.
Proof.
  intros Hbatch Hhandle. unfold post_app_init, has_ui, destroy_engine.
  rewrite Hbatch. split; [done|].
  unfold bind. rewrite log_debug_run, Hhandle. unfold raise.
  eexists. split; [reflexivity|]. by destruct w.
Qed.

Lemma batch_mode_destroy_engine_raises_witness :
  let self := fresh_engine (in_batch_mode demo_env) "tk-maya" tk_demo ctx_shot10 in
  post_app_init (in_batch_mode demo_env) self (world_disabled "")
  = (world_disabled "", inr self)
  /\ exists w',
       destroy_engine (in_batch_mode demo_env) self (world_disabled "")
       = (w', inl (AttributeError "_menu_handle"))
       /\ ui_menus w' = ui_menus (world_disabled "").
Proof.
  apply (batch_mode_destroy_engine_raises (in_batch_mode demo_env)
           (fresh_engine (in_batch_mode demo_env) "tk-maya" tk_demo ctx_shot10)
           (world_disabled ""));
    reflexivity.
Defined.

(** ** What the callback leaves alone *)

Lemma preserves_ret {X A} (f : World -> X) (a : A) : preserves f (ret a).
Proof. by intros w. Qed.

Lemma preserves_raise {X A} (f : World -> X) (e : exn) : preserves f (@raise World A e).
Proof. by intros w. Qed.

Lemma preserves_bind {X A B} (f : World -> X) (m : M World A) (k : A -> M World B) :
  preserves f m -> (forall a, preserves f (k a)) -> preserves f (bind m k).
Proof.
  intros Hm Hk w. unfold bind. specialize (Hm w).
  destruct (m w) as [w1 [e|a]]; simpl in *; [done|]. by rewrite Hk.
Qed.

Lemma preserves_try_except_else {X A B} (f : World -> X) (body : M World A)
    (catches : exn -> bool) (handler : exn -> M World B) (orelse : A -> M World B) :
  preserves f body ->
  (forall e, preserves f (handler e)) ->
  (forall a, preserves f (orelse a)) ->
  preserves f (try_except_else body catches handler orelse).
Proof.
  intros Hb Hh Ho w. unfold try_except_else. specialize (Hb w).
  destruct (body w) as [w1 [e|a]]; simpl in *.
  - destruct (catches e); [by rewrite Hh | done].
  - by rewrite Ho.
Qed.

Lemma preserves_for_each {X A} (f : World -> X) (xs : list A) (g : A -> M World unit) :
  (forall x, preserves f (g x)) -> preserves f (for_each xs g).
Proof.
  intros Hg. induction xs as [|x xs IH]; simpl.
  - apply preserves_ret.
  - by apply preserves_bind.
Qed.

Ltac preserves_step :=
  lazymatch goal with
  | |- preserves _ (bind _ _) => apply preserves_bind; [|intros ?]
  | |- preserves _ (try_except_else _ _ _ _) =>
      apply preserves_try_except_else; [|intros ?|intros ?]
  | |- preserves _ (try_except _ _ _) =>
      apply preserves_try_except_else; [|intros ?|intros ?]
  | |- preserves _ (for_each _ _) => apply preserves_for_each; intros ?
  | |- preserves _ (ret _) => apply preserves_ret
  | |- preserves _ (raise _) => apply preserves_raise
  | |- preserves _ (deleteUI _) =>
      let w := fresh "w" in
      intros w; unfold deleteUI; destruct (ui_menus w !! _); by destruct w
  | |- preserves _ (menu _) =>
      let w := fresh "w" in
      intros w; unfold menu; destruct (ui_menus w !! _); by destruct w
  | |- preserves _ (match ?x with _ => _ end) => destruct x
  | |- preserves _ _ => let w := fresh "w" in intros w; by destruct w
  end.

Ltac preserves_all :=
  unfold on_scene_event_cb, on_scene_event_try, reset_disabled_menu, switch_engine,
    teardown, destroy, destroy_engine, start_engine, init_engine, _set_project,
    _init_pyside, import_PySide, post_app_init, create_tank_disabled_menu,
    call_tank_from_path, call_context_from_path, log_debug, log_info, log_error,
    record_call, get_current_engine, sceneName, menu_exists, menuItem;
  cbv zeta;
  repeat preserves_step.

(** X14.  The scene callback and the queue do not touch each other's state:
    whatever happens in [on_scene_event_cb], the dictionaries on the heap,
    the progress bar, the record of executed jobs and the scene name are
    afterwards what they were before. *)
Theorem scene_callback_leaves_queue_alone env en pc w :
  let w' := fst (on_scene_event_cb env en pc w) in
  heap w' = heap w
  /\ progress_bar w' = progress_bar w
  /\ invoked w' = invoked w
  /\ scene_name w' = scene_name w.
Proof.
  assert (H : preserves queue_side (on_scene_event_cb env en pc)) by preserves_all.
  specialize (H w). unfold queue_side in H. by injection H.
Qed.

Lemma teardown_keeps_jobs env ce pc ctx : preserves script_jobs (teardown env ce pc ctx).
Proof.
  unfold teardown, destroy, destroy_engine, log_debug, record_call. repeat preserves_step.
Qed.

Lemma switch_engine_jobs env ce en pc tk ctx w :
  exists added,
    script_jobs (fst (switch_engine env ce en pc tk ctx w)) = script_jobs w ++ added
    /\ (added = []
        \/ exists c, added = [ScriptJob SceneOpened en c; ScriptJob SceneSaved en c]).
Proof.
  unfold switch_engine. unfold bind at 1.
  pose proof (teardown_keeps_jobs env ce pc ctx w) as Hjobs.
  destruct (teardown env ce pc ctx w) as [w1 [e|[]]]; simpl in Hjobs.
  { exists []. rewrite app_nil_r. auto. }
  unfold try_except_else. rewrite start_engine_full.
  destruct (start_error env en tk ctx) as [e|].
  - destruct (is_TankEngineInitError e).
    + unfold bind, displayInfo, modify.
      rewrite create_tank_disabled_menu_cases.
      destruct (ui_menus _ !! "TankMenuDisabled").
      * exists []. rewrite app_nil_r. simpl. auto.
      * unfold scriptJob, modify. simpl.
        eexists. split; [by rewrite <- app_assoc, <- Hjobs|]. right. by exists pc.
    + exists []. rewrite app_nil_r. simpl. auto.
  - destruct (has_ui env && bool_decide _).
    + simpl. rewrite Hjobs. eexists. split; [reflexivity|]. right. by exists ctx.
    + rewrite log_debug_run. simpl. rewrite Hjobs.
      eexists. split; [reflexivity|]. right. by exists ctx.
Qed.

(** X15.  The callback never removes a script job, and what it adds is
    nothing or exactly one SceneOpened and one SceneSaved job, in this
    order, for the engine name it was called with and one and the same
    context. *)
Theorem scene_callback_registers_in_pairs env en pc w :
  exists added,
    script_jobs (fst (on_scene_event_cb env en pc w)) = script_jobs w ++ added
    /\ (added = []
        \/ exists c, added = [ScriptJob SceneOpened en c; ScriptJob SceneSaved en c]).
Proof.
  assert (Hnone : forall w0 : World,
             script_jobs w0 = script_jobs w ->
             exists added,
               script_jobs w0 = script_jobs w ++ added
               /\ (added = []
                   \/ exists c,
                        added = [ScriptJob SceneOpened en c; ScriptJob SceneSaved en c])).
  { intros w0 Hw0. exists []. rewrite app_nil_r. auto. }
  rewrite (on_scene_event_cb_fst script_jobs) by (intros l w0; by destruct w0).
  destruct (decide (scene_name w = "")) as [Hname|Hname].
  { rewrite try_unsaved by done. apply Hnone. by destruct w. }
  destruct (tank_from_path env (scene_path env w)) as [e|tk] eqn:Htank.
  { rewrite (try_tank_error env en pc w e) by done.
    destruct (is_TankError e); apply Hnone; by destruct w. }
  rewrite (try_resolved env en pc w tk) by done.
  destruct (context_from_path env tk (scene_path env w) pc) as [e|ctx].
  { apply Hnone. by destruct w. }
  destruct (bool_decide (is_Some (current_engine w)) && bool_decide (ctx = pc)).
  { apply Hnone. by destruct w. }
  destruct (switch_engine_jobs env (current_engine w) en pc tk ctx
              (resolved_world env pc tk w)) as (added & Hadded & Hshape).
  rewrite Hadded. exists added. split; [by destruct w | done].
Qed.

(** ** The queue on any input *)

Lemma process_item_no_dictionary env qi self w :
  heap w !! qi_args qi = None ->
  process_item env qi (self, w)
  = ((set_current_progress 0 self, drained_item env qi w), inr tt).
Proof.
  intros Hd.
  unfold process_item, try_finally, try_except, try_except_else,
    force_progress_callback, drained_item.
  unfold bind, get_self, gets, set_self, modify, in_world, progressBar, ret, raise; simpl.
  rewrite Hd; simpl.
  unfold log_exception, log_error, displayError, modify; simpl.
  f_equal. f_equal.
  destruct w; world_simpl_all; simpl in *.
  f_equal. by rewrite <- app_assoc.
Qed.

Lemma process_item_any env qi self w bar :
  _maya_progress_bar self = Some bar ->
  exists p,
    process_item env qi (self, w)
    = ((set_current_progress p self, drained_item env qi w), inr tt).
Proof.
  intros Hbar. destruct (heap w !! qi_args qi) as [d|] eqn:Hd.
  - eexists. rewrite (process_item_run env qi self w d bar Hd Hbar).
    unfold drained_item. by rewrite Hd.
  - exists 0. by apply process_item_no_dictionary.
Qed.

Lemma while_queue_any env bar (q : list job_item) : forall fuel self w,
  _queue self = Some q ->
  _maya_progress_bar self = Some bar ->
  (length q <= fuel)%nat ->
  exists self',
    while_queue env fuel (self, w) = ((self', drained env q w), inr (Some tt))
    /\ _queue self' = Some [].
Proof.
  induction q as [|qi q IH]; intros fuel self w Hq Hbar Hfuel.
  - exists self. destruct fuel; simpl;
      unfold bind, get_self, gets, ret; simpl; rewrite Hq; auto.
  - destruct fuel as [|fuel]; [simpl in Hfuel; lia|].
    simpl. unfold bind at 1. unfold get_self, gets; simpl. rewrite Hq.
    unfold bind at 1. unfold set_self at 1, modify; simpl.
    unfold bind at 1.
    destruct (process_item_any env qi (set_queue q self) w bar) as [p Hitem];
      [by destruct self|].
    rewrite Hitem.
    destruct (IH fuel (set_current_progress p (set_queue q self))
                (drained_item env qi w)) as (self' & Hrun & Hq');
      [by destruct self | by destruct self | simpl in Hfuel; lia |].
    exists self'. by rewrite Hrun.
Qed.

Lemma drained_item_dictionary env qi w qi' :
  has_dictionary (heap (drained_item env qi w)) qi' = has_dictionary (heap w) qi'.
Proof.
  unfold has_dictionary, drained_item.
  destruct (heap w !! qi_args qi) as [d|] eqn:Hd; [|done]. simpl.
  destruct (decide (qi_args qi = qi_args qi')) as [Heq|Hne].
  - rewrite <- Heq, lookup_insert_eq, Hd. by rewrite !bool_decide_true by eauto.
  - by rewrite lookup_insert_ne.
Qed.

Lemma begun_app ops1 ops2 : begun (ops1 ++ ops2) = begun ops1 ++ begun ops2.
Proof. unfold begun. apply flat_map_app. Qed.

Lemma ended_app ops1 ops2 : ended (ops1 ++ ops2) = (ended ops1 + ended ops2)%nat.
Proof. unfold ended. by rewrite flat_map_app, length_app. Qed.

Lemma begun_steps steps : begun (map StepProgress steps) = [].
Proof. induction steps as [|s steps IH]; [done|]. exact IH. Qed.

Lemma ended_steps steps : ended (map StepProgress steps) = 0%nat.
Proof. induction steps as [|s steps IH]; [done|]. exact IH. Qed.

Lemma drained_item_spec env qi w :
  exists ops calls,
    progress_bar (drained_item env qi w) = progress_bar w ++ ops
    /\ begun ops = [qi_name qi]
    /\ ended ops = 1%nat
    /\ invoked (drained_item env qi w) = invoked w ++ calls
    /\ map fst calls = (if has_dictionary (heap w) qi then [qi] else [])
    /\ ui_menus (drained_item env qi w) = ui_menus w
    /\ script_jobs (drained_item env qi w) = script_jobs w
    /\ current_engine (drained_item env qi w) = current_engine w
    /\ api_calls (drained_item env qi w) = api_calls w.
Proof.
  unfold drained_item, has_dictionary.
  destruct (heap w !! qi_args qi) as [d|] eqn:Hd.
  - rewrite bool_decide_true by eauto. unfold after_item; simpl.
    eexists _, _. split; [reflexivity|]. split; [|split; [|split; [reflexivity|done]]].
    + unfold item_progress.
      change (BeginProgress (qi_name qi) :: ?l) with ([BeginProgress (qi_name qi)] ++ l).
      by rewrite !begun_app, begun_steps.
    + unfold item_progress.
      change (BeginProgress (qi_name qi) :: ?l) with ([BeginProgress (qi_name qi)] ++ l).
      by rewrite !ended_app, ended_steps.
  - rewrite bool_decide_false by (by intros [? ?]). simpl.
    exists [BeginProgress (qi_name qi); EndProgress], [].
    by rewrite app_nil_r.
Qed.

Lemma drained_spec env (q : list job_item) : forall w,
  exists ops calls,
    progress_bar (drained env q w) = progress_bar w ++ ops
    /\ begun ops = map qi_name q
    /\ ended ops = length q
    /\ invoked (drained env q w) = invoked w ++ calls
    /\ map fst calls = List.filter (has_dictionary (heap w)) q
    /\ ui_menus (drained env q w) = ui_menus w
    /\ script_jobs (drained env q w) = script_jobs w
    /\ current_engine (drained env q w) = current_engine w
    /\ api_calls (drained env q w) = api_calls w.
Proof.
  induction q as [|qi q IH]; intros w.
  - exists [], []. simpl. by rewrite !app_nil_r.
  - change (drained env (qi :: q) w) with (drained env q (drained_item env qi w)).
    destruct (drained_item_spec env qi w)
      as (ops1 & calls1 & Hbar1 & Hb1 & He1 & Hinv1 & Hc1 & Hm1 & Hj1 & Hce1 & Ha1).
    destruct (IH (drained_item env qi w))
      as (ops2 & calls2 & Hbar2 & Hb2 & He2 & Hinv2 & Hc2 & Hm2 & Hj2 & Hce2 & Ha2).
    exists (ops1 ++ ops2), (calls1 ++ calls2).
    rewrite Hbar2, Hbar1, Hinv2, Hinv1, Hm2, Hm1, Hj2, Hj1, Hce2, Hce1, Ha2, Ha1.
    rewrite begun_app, ended_app, Hb1, Hb2, He1, He2, map_app, Hc1, Hc2.
    rewrite <- !app_assoc. repeat split; try done.
    simpl. rewrite (filter_ext (has_dictionary (heap (drained_item env qi w)))
                      (has_dictionary (heap w)))
      by (intros qi'; apply drained_item_dictionary).
    by destruct (has_dictionary (heap w) qi).
Qed.

(** X16.  [execute_queue] returns normally and leaves the queue empty for
    every queue and every heap.  Each job gets one progress bar, begun under
    its name and ended, in queue order; the jobs that are called are those
    whose [args] is a dictionary, in queue order; menus, script jobs, the
    engine slot and the API calls are untouched. *)
Theorem execute_queue_never_raises env self w q fuel :
  _queue self = Some q ->
  (length q <= fuel)%nat ->
  exists self' w' ops calls,
    execute_queue env fuel (self, w) = ((self', w'), inr (Some tt))
    /\ _queue self' = Some []
    /\ progress_bar w' = progress_bar w ++ ops
    /\ begun ops = map qi_name q
    /\ ended ops = length q
    /\ invoked w' = invoked w ++ calls
    /\ map fst calls = List.filter (has_dictionary (heap w)) q
    /\ ui_menus w' = ui_menus w
    /\ script_jobs w' = script_jobs w
    /\ current_engine w' = current_engine w
    /\ api_calls w' = api_calls w.
Proof.
  intros Hq Hfuel.
  unfold execute_queue.
  unfold bind at 1. unfold get_self, gets; simpl.
  unfold bind at 1. unfold in_world; simpl. rewrite log_warning_run.
  unfold bind at 1. unfold set_self, modify; simpl.
  set (w0 := with_console _ w).
  destruct (while_queue_any env (gMainProgressBar env) q fuel
              (set_maya_progress_bar (gMainProgressBar env) self) w0)
    as (self' & Hrun & Hq'); [by destruct self | by destruct self | done |].
  destruct (drained_spec env q w0)
    as (ops & calls & Hbar & Hb & He & Hinv & Hc & Hm & Hj & Hce & Ha).
  exists self', (drained env q w0), ops, calls.
  split; [exact Hrun|]. split; [exact Hq'|].
  rewrite Hbar, Hinv, Hm, Hj, Hce, Ha, Hc. subst w0. by destruct w.
Qed.

Lemma execute_queue_never_raises_witness :
  exists self' w',
    execute_queue demo_env 2 (engine_with_broken_job, world_queued)
    = ((self', w'), inr (Some tt))
    /\ _queue self' = Some []
    /\ progress_bar w'
       = [BeginProgress "broken"; EndProgress;
          BeginProgress "export"; StepProgress 0; StepProgress 40; StepProgress 60;
          EndProgress]
    /\ map (fun c => qi_name (fst c)) (invoked w') = ["export"].
Proof.
  destruct (execute_queue_never_raises demo_env engine_with_broken_job world_queued
              [job_broken; job_export] 2)
    as (self' & w' & ops & calls & Hrun & Hq & _); [reflexivity | simpl; lia |].
  exists self', w'. split; [exact Hrun|]. split; [exact Hq|].
  assert (Hw' : w' = snd (fst (execute_queue demo_env 2
                                 (engine_with_broken_job, world_queued))))
    by (by rewrite Hrun).
  rewrite Hw'. split; reflexivity.
Defined.

(** X17.  [add_to_queue] runs nothing: handing jobs to the queue appends
    them at the tail in the order given and logs one deprecation notice per
    job, while no method is called and the progress bar and the
    dictionaries on the heap stay as they are. *)
Theorem enqueue_runs_nothing env self w q items :
  _queue self = Some q ->
  exists self' w',
    enqueue_all env items (self, w) = ((self', w'), inr tt)
    /\ _queue self' = Some (q ++ items)
    /\ invoked w' = invoked w
    /\ progress_bar w' = progress_bar w
    /\ heap w' = heap w
    /\ console w' = console w ++ enqueue_notices env items.
Proof.
  intros Hq. eexists _, _. split; [by apply enqueue_all_run|].
  by destruct w.
Qed.

Lemma enqueue_runs_nothing_witness :
  exists self' w',
    enqueue_all demo_env demo_queue (engine_queued, world_queued) = ((self', w'), inr tt)
    /\ _queue self' = Some demo_queue
    /\ invoked w' = []
    /\ progress_bar w' = [].
Proof.
  destruct (enqueue_runs_nothing demo_env engine_queued world_queued [] demo_queue)
    as (self' & w' & Hrun & Hq & Hinv & Hbar & _); [reflexivity|].
  exists self', w'. split; [exact Hrun|]. split; [exact Hq|].
  split; [exact Hinv | exact Hbar].
Defined.



Lemma total_deltas (ps : list Z) : forall current,
  total (deltas current ps) = List.last ps current - current.
Proof.
  induction ps as [|p ps IH]; intros current.
  - simpl. lia.
  - change (deltas current (p :: ps)) with ((p - current) :: deltas p ps).
    change (total ((p - current) :: deltas p ps))
      with ((p - current) + total (deltas p ps)).
    rewrite IH, last_step. lia.
Qed.

Lemma deltas_nonnegative (ps : list Z) : forall current,
  Forall (fun d => 0 <= d) (deltas current ps) <-> nondecreasing current ps.
Proof.
  induction ps as [|p ps IH]; intros current; simpl.
  - split; [done | intros _; constructor].
  - rewrite Forall_cons, IH. split; intros [? ?]; split; [lia|done|lia|done].
Qed.

(** X19.  A series of reports moves the progress bar by steps that add up
    to the last reported value minus the value stored before, which is then
    the stored value.  Nothing is clamped: the steps are all non-negative
    exactly when the reports never go down. *)
Theorem report_progress_steps_add_up self w ps current bar :
  _current_progress self = Some current ->
  _maya_progress_bar self = Some bar ->
  exists self' steps,
    for_each ps report_progress (self, w)
    = ((self', with_progress_bar (fun ops => ops ++ map StepProgress steps) w), inr tt)
    /\ _current_progress self' = Some (List.last ps current)
    /\ total steps = List.last ps current - current
    /\ (Forall (fun d => 0 <= d) steps <-> nondecreasing current ps).
Proof.
  intros Hcur Hbar.
  exists (set_current_progress (List.last ps current) self), (deltas current ps).
  split; [by apply (run_reports ps self w current bar)|].
  split; [done|]. split; [apply total_deltas | apply deltas_nonnegative].
Qed.

Lemma report_progress_steps_add_up_witness :
  exists self' steps,
    for_each [30; 10] report_progress (engine_reporting, world_queued)
    = ((self', with_progress_bar (fun ops => ops ++ map StepProgress steps) world_queued),
       inr tt)
    /\ _current_progress self' = Some 10
    /\ total steps = -30
    /\ ~ Forall (fun d => 0 <= d) steps.
Proof.
  destruct (report_progress_steps_add_up engine_reporting world_queued [30; 10] 40
              "mainProgressBar")
    as (self' & steps & Hrun & Hcur & Htotal & Hsign); [reflexivity | reflexivity |].
  exists self', steps. split; [exact Hrun|]. split; [exact Hcur|].
  split; [exact Htotal|].
  intros Hall. apply Hsign in Hall. simpl in Hall. lia.
Defined.
